(** * PitchTrainer: the evaluation normalizer of [EvaluationService]

    A shallow embedding of [validateEvaluationResult] and
    [calculateKPIScores], the two pure methods of the class
    [EvaluationService] (src/services/EvaluationService.js), together with
    the fragment of JavaScript they run on: JSON-shaped values, own
    properties in property order, object spread, [||], [Object.values],
    [Array.prototype.slice/map/reduce/includes], [Math.round].

    Numbers.  A JavaScript number is an IEEE-754 double.  The values of
    the embedding carry a finite number as an exact rational (kept in
    lowest terms), next to [NaN] and the two infinities, with one zero; the
    functions on them compute exactly.  They serve for what does not depend
    on rounding: which inputs are accepted, the shape of the result, the
    defaults, the range of the score, and the category scores of whole
    numbers.  What the scores are exactly is stated on doubles: the module
    [Doubles] embeds the same arithmetic with the primitive floats of Rocq,
    every operation rounding to the nearest double as in the source.

    Strings are sequences of 8-bit characters instead of UTF-16 code units.

    Arithmetic on operands that JavaScript would first turn into a string
    (a string, an array or an object met by [+]) is outside the fragment:
    the embedding answers [OutOfModel] there and states nothing.

    Around the normalizer the file also embeds what produces and consumes
    its result: [DatabaseService.storeEvaluation] (as the queries it submits
    while the database accepts them), the object that
    [EvaluationService.evaluate] resolves with and the record that
    [POST /api/evaluate] stores, [calculateCategoryScore], [getScoreColor]
    and [getBarColor] of the results view, and
    [TranscriptionService.getFileExtension] with the upload filter of the
    server. *)

From Stdlib Require Import List String Ascii Bool Arith ZArith NArith QArith Qround Qreduction Lia Lqa.
From Stdlib Require Import DecimalString DecimalNat DecimalFacts.
From Stdlib Require Import Floats.
Import ListNotations.
Open Scope string_scope.
Open Scope list_scope.

(** ** Numbers *)

Inductive number : Type :=
| Fin (q : Q)
| NaN
| Inf (negative : bool).

Definition Qzero (q : Q) : bool := Qeq_bool q 0.
Definition Qneg (q : Q) : bool := negb (Qle_bool 0 q).

Definition num_add (a b : number) : number :=
  match a, b with
  | NaN, _ | _, NaN => NaN
  | Fin x, Fin y => Fin (Qred (x + y))
  | Inf s, Fin _ | Fin _, Inf s => Inf s
  | Inf s, Inf t => if Bool.eqb s t then Inf s else NaN
  end.

Definition num_mul (a b : number) : number :=
  match a, b with
  | NaN, _ | _, NaN => NaN
  | Fin x, Fin y => Fin (Qred (x * y))
  | Inf s, Fin y | Fin y, Inf s => if Qzero y then NaN else Inf (xorb s (Qneg y))
  | Inf s, Inf t => Inf (xorb s t)
  end.

Definition num_div (a b : number) : number :=
  match a, b with
  | NaN, _ | _, NaN => NaN
  | Fin x, Fin y =>
      if Qzero y then (if Qzero x then NaN else Inf (Qneg x))
      else Fin (Qred (x / y))
  | Fin _, Inf _ => Fin 0
  | Inf s, Fin y => Inf (xorb s (Qneg y))
  | Inf _, Inf _ => NaN
  end.

(** [Math.round]: the integer nearest to the argument, a tie going to the
    larger one ([Math.round(2.5) = 3], [Math.round(-2.5) = -2]). *)
Definition math_round (a : number) : number :=
  match a with
  | Fin x => Fin (inject_Z (Qfloor (x + (1 # 2))))
  | _ => a
  end.

Definition of_nat (n : nat) : number := Fin (inject_Z (Z.of_nat n)).

(** ** Values *)

#[local] Set Warnings "-register-all".

Inductive value : Type :=
| JUndefined
| JNull
| JBool (b : bool)
| JNum (n : number)
| JStr (s : string)
| JArr (items : list value)
| JObj (props : list (string * value)).

Definition obj : Type := list (string * value).

(** ToBoolean. *)
Definition truthy (v : value) : bool :=
  match v with
  | JUndefined | JNull => false
  | JBool b => b
  | JNum (Fin q) => negb (Qzero q)
  | JNum NaN => false
  | JNum (Inf _) => true
  | JStr s => negb (String.eqb s "")
  | JArr _ | JObj _ => true
  end.

(** [a || b]. *)
Definition js_or (a b : value) : value := if truthy a then a else b.

(** ** Outcomes: a value, a thrown error, or an input outside the fragment *)

Inductive JsError : Type := TypeError.

Inductive outcome (A : Type) : Type :=
| Ok (a : A)
| Throw (e : JsError)
| OutOfModel.
Arguments Ok {A} a.
Arguments Throw {A} e.
Arguments OutOfModel {A}.

Definition bind {A B : Type} (m : outcome A) (k : A -> outcome B) : outcome B :=
  match m with
  | Ok a => k a
  | Throw e => Throw e
  | OutOfModel => OutOfModel
  end.

Notation "x <- m ;; k" := (bind m (fun x => k))
  (at level 61, m at next level, right associativity).

Fixpoint mapM {A B : Type} (f : A -> outcome B) (l : list A) : outcome (list B) :=
  match l with
  | [] => Ok []
  | a :: r => b <- f a ;; bs <- mapM f r ;; Ok (b :: bs)
  end.

(** ** Objects: own properties in property order *)

Fixpoint lookup (k : string) (o : obj) : option value :=
  match o with
  | [] => None
  | (k', v) :: r => if String.eqb k k' then Some v else lookup k r
  end.

Fixpoint update (k : string) (v : value) (o : obj) : obj :=
  match o with
  | [] => []
  | (k', v') :: r =>
      if String.eqb k k' then (k', v) :: r else (k', v') :: update k v r
  end.

Definition is_digit (c : ascii) : bool :=
  ((48 <=? nat_of_ascii c) && (nat_of_ascii c <=? 57))%nat.

Fixpoint digits_value (s : string) (acc : N) : option N :=
  match s with
  | EmptyString => Some acc
  | String c r =>
      if is_digit c
      then digits_value r (acc * 10 + N.of_nat (nat_of_ascii c - 48))%N
      else None
  end.

(** A key is an array index when it is the canonical decimal form of an
    integer below 2^32 - 1. *)
Definition array_index (k : string) : option N :=
  match k with
  | EmptyString => None
  | String c r =>
      if andb (Ascii.eqb c "0") (negb (String.eqb r ""))
      then None
      else match digits_value k 0 with
           | Some n => if (n <? 4294967295)%N then Some n else None
           | None => None
           end
  end.

(** A new array-index key goes among the array-index keys, in ascending
    order; these come before all other keys. *)
Fixpoint insert_index (n : N) (k : string) (v : value) (o : obj) : obj :=
  match o with
  | [] => [(k, v)]
  | (k', v') :: r =>
      match array_index k' with
      | Some m =>
          if (m <? n)%N then (k', v') :: insert_index n k v r
          else (k, v) :: o
      | None => (k, v) :: o
      end
  end.

(** Creating or overwriting an own data property: an existing key keeps its
    place, a new key that is not an array index goes last. *)
Definition define_property (k : string) (v : value) (o : obj) : obj :=
  match lookup k o with
  | Some _ => update k v o
  | None =>
      match array_index k with
      | Some n => insert_index n k v o
      | None => o ++ [(k, v)]
      end
  end.

Definition index_key (i : nat) : string :=
  NilEmpty.string_of_uint (Nat.to_uint i).

Fixpoint indexed (i : nat) (l : list value) : obj :=
  match l with
  | [] => []
  | v :: r => (index_key i, v) :: indexed (S i) r
  end.

Fixpoint chars (s : string) : list value :=
  match s with
  | EmptyString => []
  | String c r => JStr (String c EmptyString) :: chars r
  end.

(** The own enumerable string-keyed properties of a value, in order. *)
Definition own_props (v : value) : obj :=
  match v with
  | JObj o => o
  | JArr l => indexed 0 l
  | JStr s => indexed 0 (chars s)
  | _ => []
  end.

(** Copying the properties [l], in order, onto [target]. *)
Definition define_all (l : obj) (target : obj) : obj :=
  fold_left (fun o kv => define_property (fst kv) (snd kv) o) l target.

(** [{ ...target, ...src }] once [target] is already laid out. *)
Definition spread (target : obj) (src : value) : obj :=
  define_all (own_props src) target.

(** [v.k] and [v[k]] for a key [k] other than [length] that no prototype
    defines (the keys read here are [kpis], [proposals], [word_count],
    [summary], [type], [title], [description], [priority] and the category
    names): a [TypeError] on [null] and [undefined], [undefined] where the
    key is missing. *)
Definition get_prop (v : value) (k : string) : outcome value :=
  match v with
  | JUndefined | JNull => Throw TypeError
  | _ => match lookup k (own_props v) with
         | Some x => Ok x
         | None => Ok JUndefined
         end
  end.

(** [Object.values(v)]. *)
Definition object_values (v : value) : outcome (list value) :=
  match v with
  | JUndefined | JNull => Throw TypeError
  | _ => Ok (map snd (own_props v))
  end.

(** [Object.entries(v)]. *)
Definition object_entries (v : value) : outcome obj :=
  match v with
  | JUndefined | JNull => Throw TypeError
  | _ => Ok (own_props v)
  end.

(** ** EvaluationService *)

Module EvaluationService.

Definition zero : value := JNum (Fin 0).

Definition defaultKpis : obj :=
  [ ("call_to_action", JObj
       [ ("specific_referral_ask", zero);
         ("contact_method_clarity", zero);
         ("target_client_definition", zero);
         ("actionable_request", zero) ]);
    ("structure_time", JObj
       [ ("introduction_completeness", zero);
         ("word_count_optimization", zero);
         ("clear_flow_organization", zero);
         ("time_management", zero) ]);
    ("content_clarity", JObj
       [ ("jargon_free_language", zero);
         ("single_focus_maintenance", zero);
         ("benefit_articulation", zero);
         ("credibility_markers", zero) ]);
    ("memorability", JObj
       [ ("hook_tagline_presence", zero);
         ("unique_element", zero);
         ("concrete_examples", zero) ]) ].

Definition weights : list (string * Q) :=
  [ ("call_to_action", 2 # 5);
    ("structure_time", 1 # 4);
    ("content_clarity", 1 # 5);
    ("memorability", 3 # 20) ].

(** [sum + score] with a number on the left. *)
Definition js_plus (sum : number) (score : value) : outcome number :=
  match score with
  | JNum n => Ok (num_add sum n)
  | JNull => Ok (num_add sum (Fin 0))
  | JBool b => Ok (num_add sum (Fin (if b then 1 else 0)))
  | JUndefined => Ok NaN
  | JStr _ | JArr _ | JObj _ => OutOfModel
  end.

(** [scores.reduce((sum, score) => sum + score, sum0)]. *)
Fixpoint reduce_sum (scores : list value) (sum : number) : outcome number :=
  match scores with
  | [] => Ok sum
  | score :: r => sum' <- js_plus sum score ;; reduce_sum r sum'
  end.

(** The average of the own property values of [items]. *)
Definition average (items : value) : outcome number :=
  scores <- object_values items ;;
  sum <- reduce_sum scores (Fin 0) ;;
  Ok (num_div sum (of_nat (List.length scores))).

(** The loop over [Object.entries(weights)]. *)
Fixpoint weighted_loop (ws : list (string * Q)) (kpis : obj) (overallScore : number)
  : outcome number :=
  match ws with
  | [] => Ok overallScore
  | (category, weight) :: r =>
      items <- get_prop (JObj kpis) category ;;
      categoryAvg <- average items ;;
      weighted_loop r kpis (num_add overallScore (num_mul categoryAvg (Fin weight)))
  end.

(** [['HIGH', 'MEDIUM', 'LOW'].includes(v)]. *)
Definition valid_priority (v : value) : bool :=
  match v with
  | JStr s => existsb (String.eqb s) ["HIGH"; "MEDIUM"; "LOW"]
  | _ => false
  end.

(** The callback of [map] over the proposals. *)
Definition normalize_proposal (proposal : value) : outcome value :=
  type <- get_prop proposal "type" ;;
  title <- get_prop proposal "title" ;;
  description <- get_prop proposal "description" ;;
  priority <- get_prop proposal "priority" ;;
  Ok (JObj
        [ ("type", js_or type (JStr "GENERAL_IMPROVEMENT"));
          ("title", js_or title (JStr "Verbesserung"));
          ("description", js_or description (JStr "Siehe Bewertungsdetails"));
          ("priority", if valid_priority priority then priority else JStr "MEDIUM") ]).

(** [p.slice(0, 3).map(...)]: only an array has both methods with this
    meaning; a string has [slice] but no [map], anything else has no
    [slice]. *)
Definition slice_map (p : value) : outcome (list value) :=
  match p with
  | JArr l => mapM normalize_proposal (firstn 3 l)
  | _ => Throw TypeError
  end.

(** [{ ...defaultKpis, ...(rawKpis || {}) }]. *)
Definition merge_kpis (rawKpis : value) : obj :=
  spread (spread [] (JObj defaultKpis)) (js_or rawKpis (JObj [])).

Definition validateEvaluationResult (result : value) : outcome value :=
  rawKpis <- get_prop result "kpis" ;;
  let kpis := merge_kpis rawKpis in
  overallScore <- weighted_loop weights kpis (Fin 0) ;;
  rawProposals <- get_prop result "proposals" ;;
  proposals <- slice_map (js_or rawProposals (JArr [])) ;;
  word_count <- get_prop result "word_count" ;;
  summary <- get_prop result "summary" ;;
  Ok (JObj
        [ ("kpis", JObj kpis);
          ("proposals", JArr proposals);
          ("overall_score",
             JNum (num_div (math_round (num_mul overallScore (Fin 10))) (Fin 10)));
          ("word_count", js_or word_count zero);
          ("summary", js_or summary (JStr "Bewertung abgeschlossen")) ]).

(** [scores[category] = n], for a number [n], on an object that began as
    the literal [{}] and has only been written to in this way.  The key
    [__proto__] is not created: it is the accessor that the object inherits
    from [Object.prototype], and its setter ignores a number.  Every other
    name of [Object.prototype] is a writable data property there, so the
    assignment creates an own property as for any other key. *)
Definition assign_number (category : string) (n : number) (scores : obj) : obj :=
  if String.eqb category "__proto__" then scores
  else define_property category (JNum n) scores.

(** The loop of [calculateKPIScores] over [Object.entries(kpis)]. *)
Fixpoint scores_loop (entries : obj) (scores : obj) : outcome obj :=
  match entries with
  | [] => Ok scores
  | (category, items) :: r =>
      avg <- average items ;;
      scores_loop r (assign_number category (math_round avg) scores)
  end.

Definition calculateKPIScores (kpis : value) : outcome value :=
  entries <- object_entries kpis ;;
  scores <- scores_loop entries [] ;;
  Ok (JObj scores).

End EvaluationService.

Import EvaluationService.

(** ** Reading results *)

(** The property [k] of a value that is not [null] or [undefined]. *)
Definition field (k : string) (v : value) : value :=
  match lookup k (own_props v) with
  | Some x => x
  | None => JUndefined
  end.

Definition nullish (v : value) : bool :=
  match v with
  | JUndefined | JNull => true
  | _ => false
  end.

Definition categories : list string := map fst weights.

(** The sub-criteria of each category, as the evaluation prompt lists them. *)
Definition rubric (category : string) : list string :=
  if String.eqb category "call_to_action" then
    ["specific_referral_ask"; "contact_method_clarity";
     "target_client_definition"; "actionable_request"]
  else if String.eqb category "structure_time" then
    ["introduction_completeness"; "word_count_optimization";
     "clear_flow_organization"; "time_management"]
  else if String.eqb category "content_clarity" then
    ["jargon_free_language"; "single_focus_maintenance";
     "benefit_articulation"; "credibility_markers"]
  else if String.eqb category "memorability" then
    ["hook_tagline_presence"; "unique_element"; "concrete_examples"]
  else [].

(** What the caller supplies as [kpis]: the own properties of
    [raw.kpis || {}]. *)
Definition supplied_kpis (raw : value) : obj :=
  own_props (js_or (field "kpis" raw) (JObj [])).

(** What the caller supplies as [proposals]: [raw.proposals || []]. *)
Definition supplied_proposals (raw : value) : value :=
  js_or (field "proposals" raw) (JArr []).

(** Keys of arrays and strings start with a digit. *)
Definition starts_with_digit (k : string) : bool :=
  match k with
  | EmptyString => false
  | String c _ => is_digit c
  end.

(** The object that [validateEvaluationResult] returns. *)
Definition result_object (kpis : obj) (proposals : list value)
    (overallScore : number) (word_count summary : value) : value :=
  JObj
    [ ("kpis", JObj kpis);
      ("proposals", JArr proposals);
      ("overall_score",
         JNum (num_div (math_round (num_mul overallScore (Fin 10))) (Fin 10)));
      ("word_count", js_or word_count zero);
      ("summary", js_or summary (JStr "Bewertung abgeschlossen")) ].

(** ** The rubric arithmetic, in rationals *)

Definition finite (v : value) : option Q :=
  match v with
  | JNum (Fin q) => Some q
  | _ => None
  end.

Fixpoint all_finite (l : list value) : option (list Q) :=
  match l with
  | [] => Some []
  | v :: r =>
      match finite v, all_finite r with
      | Some q, Some qs => Some (q :: qs)
      | _, _ => None
      end
  end.

(** The sub-criterion values of a category, when all of them are finite
    numbers. *)
Definition finite_values (v : value) : option (list Q) :=
  if nullish v then None else all_finite (map snd (own_props v)).

Definition Qsum (l : list Q) : Q := fold_right Qplus 0 l.

(** Arithmetic mean of a non-empty list. *)
Definition mean (l : list Q) : Q := Qsum l / inject_Z (Z.of_nat (List.length l)).

(** The weighted sum of the four category means. *)
Definition weighted_sum (cta st cc mem : list Q) : Q :=
  mean cta * (40 # 100) + mean st * (25 # 100) + mean cc * (20 # 100) + mean mem * (15 # 100).

(** One decimal place, a tie going up. *)
Definition round1_half_up (x : Q) : Q := inject_Z (Qfloor (x * 10 + (1 # 2))) / 10.

(** One decimal place, a tie going away from zero. *)
Definition round1_half_away (x : Q) : Q :=
  if Qle_bool 0 x then inject_Z (Qfloor (x * 10 + (1 # 2))) / 10
  else - (inject_Z (Qfloor (- x * 10 + (1 # 2))) / 10).

(** ** Inputs of the unit tests *)

Definition num (z : Z) : value := JNum (Fin (inject_Z z)).

(** 'should validate and normalize complete evaluation result' *)
Definition mockResult : value :=
  JObj
    [ ("kpis", JObj
        [ ("call_to_action", JObj
            [ ("specific_referral_ask", num 85); ("contact_method_clarity", num 90);
              ("target_client_definition", num 80); ("actionable_request", num 88) ]);
          ("structure_time", JObj
            [ ("introduction_completeness", num 75); ("word_count_optimization", num 85);
              ("clear_flow_organization", num 80); ("time_management", num 90) ]);
          ("content_clarity", JObj
            [ ("jargon_free_language", num 95); ("single_focus_maintenance", num 88);
              ("benefit_articulation", num 82); ("credibility_markers", num 78) ]);
          ("memorability", JObj
            [ ("hook_tagline_presence", num 60); ("unique_element", num 70);
              ("concrete_examples", num 65) ]) ]);
      ("proposals", JArr
        [ JObj [ ("type", JStr "CTA_SPECIFICITY");
                 ("title", JStr "Spezifischere Empfehlung");
                 ("description", JStr "Konkretere Empfehlungsanfrage formulieren");
                 ("priority", JStr "HIGH") ] ]);
      ("overall_score", JNum (Fin (165 # 2)));
      ("word_count", num 105);
      ("summary", JStr "Guter Pitch mit Verbesserungspotential") ].

(** 'should fill missing KPI categories with defaults' *)
Definition incompleteResult : value :=
  JObj
    [ ("kpis", JObj [ ("call_to_action", JObj [ ("specific_referral_ask", num 80) ]) ]);
      ("proposals", JArr []) ].

(** What [validateEvaluationResult] returns on a test input. *)
Definition returned (raw : value) : value :=
  match validateEvaluationResult raw with
  | Ok out => out
  | _ => JUndefined
  end.

(** Values that are the same for [===], numbers being compared as numbers. *)
Definition same_value (a b : value) : Prop :=
  match a, b with
  | JNum (Fin x), JNum (Fin y) => x == y
  | _, _ => a = b
  end.

(** The non-object top-level inputs. *)
Definition primitive (v : value) : bool :=
  match v with
  | JArr _ | JObj _ => false
  | _ => true
  end.

(** The result for an input that supplies nothing. *)
Definition all_defaults : value :=
  result_object defaultKpis [] (Fin 0) JUndefined JUndefined.

(** The elements of an array. *)
Definition items (v : value) : list value :=
  match v with
  | JArr l => l
  | _ => []
  end.

(** 'should limit proposals to maximum 3 items', the first proposal with
    the priority of 'should validate proposal priority values'. *)
Definition resultWithManyProposals : value :=
  JObj
    [ ("proposals", JArr
        [ JObj [ ("type", JStr "TYPE1"); ("title", JStr "Title1");
                 ("description", JStr "Desc1"); ("priority", JStr "INVALID") ];
          JObj [ ("type", JStr "TYPE2"); ("title", JStr "Title2"); ("description", JStr "Desc2") ];
          JObj [ ("type", JStr "TYPE3"); ("title", JStr "Title3"); ("description", JStr "Desc3") ];
          JObj [ ("type", JStr "TYPE4"); ("title", JStr "Title4"); ("description", JStr "Desc4") ];
          JObj [ ("type", JStr "TYPE5"); ("title", JStr "Title5"); ("description", JStr "Desc5") ] ]) ].

(** An input whose fields are present but falsy. *)
Definition falsyResult : value :=
  JObj
    [ ("proposals", JArr
        [ JObj [ ("type", JStr ""); ("title", JStr ""); ("description", JStr "");
                 ("priority", JStr "LOW") ] ]);
      ("word_count", JNum NaN);
      ("summary", JStr "") ].

(** An entry of the returned proposals against the entry it comes from, for
    C7: the four keys, a missing field defaulted, a truthy one kept, the
    priority kept exactly when it is one of the three. *)
Definition proposal_normalized (p p' : value) : Prop :=
  map fst (own_props p') = ["type"; "title"; "description"; "priority"] /\
  (lookup "type" (own_props p) = None -> field "type" p' = JStr "GENERAL_IMPROVEMENT") /\
  (lookup "title" (own_props p) = None -> field "title" p' = JStr "Verbesserung") /\
  (lookup "description" (own_props p) = None ->
     field "description" p' = JStr "Siehe Bewertungsdetails") /\
  (truthy (field "type" p) = true -> field "type" p' = field "type" p) /\
  (truthy (field "title" p) = true -> field "title" p' = field "title" p) /\
  (truthy (field "description" p) = true -> field "description" p' = field "description" p) /\
  (forall s, In s ["HIGH"; "MEDIUM"; "LOW"] -> field "priority" p = JStr s ->
     field "priority" p' = JStr s) /\
  ((forall s, In s ["HIGH"; "MEDIUM"; "LOW"] -> field "priority" p <> JStr s) ->
     field "priority" p' = JStr "MEDIUM").

(** The same for C9: any falsy field is replaced by its default. *)
Definition proposal_defaulted (p p' : value) : Prop :=
  (truthy (field "type" p) = false -> field "type" p' = JStr "GENERAL_IMPROVEMENT") /\
  (truthy (field "title" p) = false -> field "title" p' = JStr "Verbesserung") /\
  (truthy (field "description" p) = false ->
     field "description" p' = JStr "Siehe Bewertungsdetails").

(** A rubric-shaped input with one negative score, whose weighted sum is
    -0.05. *)
Definition negativeTie : value :=
  JObj
    [ ("kpis", JObj
        [ ("content_clarity", JObj
            [ ("jargon_free_language", num (-1)); ("single_focus_maintenance", num 0);
              ("benefit_articulation", num 0); ("credibility_markers", num 0) ]) ]) ].

(** An input with a category that has no sub-criteria. *)
Definition emptyCategory : value :=
  JObj [ ("kpis", JObj [ ("call_to_action", JObj []) ]) ].

(** The hypothesis of C5 as stated: every number among the supplied
    sub-criteria lies in [0, 100]. *)
Definition supplied_numbers_in_range (raw : value) : Prop :=
  forall c v s n, In (c, v) (supplied_kpis raw) -> In (s, JNum n) (own_props v) ->
    exists q, n = Fin q /\ 0 <= q <= 100.

(** A supplied category that can be averaged within [0, 100]: an object
    with at least one sub-criterion, all of them numbers in [0, 100]. *)
Definition category_in_range (v : value) : Prop :=
  exists qs, finite_values v = Some qs /\ qs <> [] /\
             Forall (fun q => 0 <= q <= 100) qs.



(** A [kpis] object with an own key [__proto__], as [JSON.parse] yields
    for such a member. *)
Definition protoKpis : value :=
  JObj
    [ ("__proto__", JObj [ ("score", num 1) ]);
      ("call_to_action", JObj [ ("score1", num 90); ("score2", num 85) ]) ].

(** ** Inputs that are accepted *)

(** The operands that [+] adds as numbers. *)
Definition summable (v : value) : bool :=
  match v with
  | JStr _ | JArr _ | JObj _ => false
  | _ => true
  end.


(** [proposals] is falsy or an array, and none of its first three entries
    is [null] or [undefined]. *)
Definition proposals_usable (raw : value) : Prop :=
  exists l, supplied_proposals raw = JArr l /\
            Forall (fun p => nullish p = false) (firstn 3 l).






(** 'should calculate category averages correctly', with the
    [content_clarity] of the service integration test. *)
Definition testKpis : value :=
  JObj
    [ ("call_to_action", JObj
        [ ("specific_referral_ask", num 80); ("contact_method_clarity", num 90);
          ("target_client_definition", num 70); ("actionable_request", num 100) ]);
      ("structure_time", JObj
        [ ("introduction_completeness", num 60); ("word_count_optimization", num 80);
          ("clear_flow_organization", num 70); ("time_management", num 90) ]);
      ("content_clarity", JObj [ ("score1", num 90); ("score2", num 85) ]) ].


(** ** More of the JavaScript fragment *)

(** The names that a plain object inherits from [Object.prototype]; reading
    one of them from an object literal does not give [undefined]. *)
Definition prototype_keys : list string :=
  [ "constructor"; "hasOwnProperty"; "isPrototypeOf"; "propertyIsEnumerable";
    "toLocaleString"; "toString"; "valueOf"; "__defineGetter__";
    "__defineSetter__"; "__lookupGetter__"; "__lookupSetter__"; "__proto__" ].

Definition inherited (k : string) : bool := existsb (String.eqb k) prototype_keys.

(** ToPropertyKey, for the values whose string form needs no number
    formatting. *)
Definition property_key (v : value) : outcome string :=
  match v with
  | JStr s => Ok s
  | JUndefined => Ok "undefined"
  | JNull => Ok "null"
  | JBool true => Ok "true"
  | JBool false => Ok "false"
  | JNum _ | JArr _ | JObj _ => OutOfModel
  end.

(** ToNumber, for the values that are not first turned into a string. *)
Definition to_number (v : value) : outcome number :=
  match v with
  | JNum n => Ok n
  | JNull => Ok (Fin 0)
  | JBool b => Ok (Fin (if b then 1 else 0))
  | JUndefined => Ok NaN
  | JStr _ | JArr _ | JObj _ => OutOfModel
  end.

(** [a >= b] on numbers. *)
Definition num_ge (a b : number) : bool :=
  match a, b with
  | NaN, _ | _, NaN => false
  | Fin x, Fin y => Qle_bool y x
  | Inf s, Fin _ => negb s
  | Fin _, Inf s => s
  | Inf s, Inf t => orb (negb s) t
  end.

(** [Object.keys(v)]. *)
Definition object_keys (v : value) : outcome (list string) :=
  match v with
  | JUndefined | JNull => Throw TypeError
  | _ => Ok (map fst (own_props v))
  end.

(** ** DatabaseService *)

Module DatabaseService.

(** The parameters of [INSERT INTO evaluations]; [kpi_scores] is the value
    handed to [JSON.stringify]. *)
Record evaluation_row : Type := {
  timestamp : value;
  duration : value;
  kpi_scores : value;
  word_count : value;
  overall_score : number
}.

(** [kpiTotal / Object.keys(kpi).length], the body of the outer reducer. *)
Definition kpi_average (kpi : value) : outcome number :=
  values <- object_values kpi ;;
  kpiTotal <- reduce_sum values (Fin 0) ;;
  keys <- object_keys kpi ;;
  Ok (num_div kpiTotal (of_nat (List.length keys))).

(** [kpiValues.reduce((sum, kpi) => sum + ..., sum0)]. *)
Fixpoint sum_averages (kpiValues : list value) (sum : number) : outcome number :=
  match kpiValues with
  | [] => Ok sum
  | kpi :: r => a <- kpi_average kpi ;; sum_averages r (num_add sum a)
  end.

Definition overallScore (kpi_scores : value) : outcome number :=
  kpiValues <- object_values kpi_scores ;;
  total <- sum_averages kpiValues (Fin 0) ;;
  Ok (num_div total (of_nat (List.length kpiValues))).

(** [proposalCounts[p.type] = (proposalCounts[p.type] || 0) + 1].  A type
    that names an inherited property reads a function and is outside the
    fragment. *)
Definition count_proposal (proposalCounts : obj) (p : value) : outcome obj :=
  type <- get_prop p "type" ;;
  key <- property_key type ;;
  if inherited key then OutOfModel
  else
    old <- to_number (js_or (field key (JObj proposalCounts)) zero) ;;
    Ok (define_property key (JNum (num_add old (Fin 1))) proposalCounts).

Fixpoint count_all (l : list value) (proposalCounts : obj) : outcome obj :=
  match l with
  | [] => Ok proposalCounts
  | p :: r => counts <- count_proposal proposalCounts p ;; count_all r counts
  end.

(** [proposals.forEach(...)] over an empty [proposalCounts]: only an array
    has [forEach]. *)
Definition proposalCounts (proposals : value) : outcome obj :=
  match proposals with
  | JArr l => count_all l []
  | _ => Throw TypeError
  end.

(** [storeEvaluation] as the queries it submits while the database accepts
    them: first the row for [evaluations]; then, once that insert has
    resolved with an id, either an error or one row [(id, type, count)] for
    [proposals] per entry of [proposalCounts].  The outer outcome is what
    happens before any query. *)
Definition storeEvaluation (data : value)
  : outcome (evaluation_row * outcome (list (string * value))) :=
  duration <- get_prop data "duration" ;;
  kpi_scores <- get_prop data "kpi_scores" ;;
  proposals <- get_prop data "proposals" ;;
  word_count <- get_prop data "word_count" ;;
  timestamp <- get_prop data "timestamp" ;;
  overallScore <- overallScore kpi_scores ;;
  Ok ({| timestamp := timestamp; duration := duration; kpi_scores := kpi_scores;
         word_count := word_count; overall_score := overallScore |},
      (counts <- proposalCounts proposals ;; object_entries (JObj counts))).

End DatabaseService.

(** ** ResultsDisplay *)

Module ResultsDisplay.

Definition calculateCategoryScore (result : value) (category : string)
  : outcome number :=
  kpis <- get_prop result "kpis" ;;
  items <- get_prop kpis category ;;
  scores <- object_values items ;;
  sum <- reduce_sum scores (Fin 0) ;;
  Ok (math_round (num_div sum (of_nat (List.length scores)))).

Definition getScoreColor (score : value) : outcome string :=
  n <- to_number score ;;
  if num_ge n (Fin 80) then Ok "text-green-600"
  else if num_ge n (Fin 60) then Ok "text-yellow-600"
  else Ok "text-red-600".

Definition getBarColor (score : value) : outcome string :=
  n <- to_number score ;;
  if num_ge n (Fin 80) then Ok "bg-green-500"
  else if num_ge n (Fin 60) then Ok "bg-yellow-500"
  else Ok "bg-red-500".

End ResultsDisplay.

(** ** TranscriptionService and the upload filter of the server *)

Module TranscriptionService.




End TranscriptionService.

Module Server.



(** [{ ...evaluation, processing_time, model_used }], what
    [EvaluationService.evaluate] resolves with. *)
Definition evaluated (evaluation processing_time model_used : value) : value :=
  JObj (define_property "model_used" model_used
          (define_property "processing_time" processing_time
             (spread [] evaluation))).

(** The argument of [dbService.storeEvaluation] in [POST /api/evaluate]. *)
Definition stored_data (evaluation duration word_count timestamp : value) : value :=
  JObj
    [ ("duration", duration);
      ("kpi_scores", field "kpis" evaluation);
      ("proposals", field "proposals" evaluation);
      ("word_count", word_count);
      ("timestamp", timestamp) ].

End Server.

(** ** Reading the stored rows *)

(** A proposal that [storeEvaluation] can count under the type [t]. *)
Definition typed_proposal (p : value) (t : string) : Prop :=
  nullish p = false /\ field "type" p = JStr t /\ inherited t = false.

(** 'should calculate overall score correctly' of the database tests. *)
Definition storedKpis : value :=
  JObj
    [ ("call_to_action", JObj [ ("score1", num 80); ("score2", num 90) ]);
      ("structure_time", JObj [ ("score1", num 70); ("score2", num 80) ]) ].

Definition storedProposals : list value :=
  [ JObj [ ("type", JStr "CTA_CLARITY") ];
    JObj [ ("type", JStr "ADD_MEMORY_HOOK") ];
    JObj [ ("type", JStr "CTA_CLARITY") ] ].

Definition storedData (proposals : value) : value :=
  JObj
    [ ("duration", num 60); ("kpi_scores", storedKpis); ("proposals", proposals);
      ("word_count", num 120); ("timestamp", JStr "2025-01-01T00:00:00.000Z") ].

(** [counts] is the histogram of the types [ts]: one key per type that
    occurs, holding the number of its occurrences, and no other key. *)
Definition histogram_of (counts : obj) (ts : list string) : Prop :=
  NoDup (map fst counts) /\
  forall t,
    match lookup t counts with
    | Some v =>
        In t ts /\
        exists q, v = JNum (Fin q) /\
                  q == inject_Z (Z.of_nat (count_occ string_dec ts t))
    | None => ~ In t ts
    end.

(** A category that is averaged without an error: not [null] or
    [undefined], and its values are added as numbers. *)
Definition storable_category (v : value) : Prop :=
  nullish v = false /\
  Forall (fun x => summable x = true) (map snd (own_props v)).


(** ** Well-formed proposals *)

(** What every returned proposal satisfies: the four keys, a truthy type,
    title and description, and one of the three priorities. *)
Definition well_formed_proposal (p : value) : Prop :=
  map fst (own_props p) = ["type"; "title"; "description"; "priority"] /\
  truthy (field "type" p) = true /\
  truthy (field "title" p) = true /\
  truthy (field "description" p) = true /\
  In (field "priority" p) [JStr "HIGH"; JStr "MEDIUM"; JStr "LOW"].

(** ** The overall score in double precision *)

(** The arithmetic of [validateEvaluationResult] once more, now on IEEE 754
    doubles: every [+], [*] and [/] of the source is the correctly rounded
    operation, in the order in which the source performs them.  The values
    are those of the rest of the development; a number [n/d] in an input
    stands for the double nearest to it, which is what reading a JSON
    number gives. *)

#[local] Set Warnings "-inexact-float".

Module Doubles.

(** The double nearest to an integer. *)
Definition double_of_Z (z : Z) : float :=
  SF2Prim (binary_normalize prec emax z 0 false).

(** The double of a number of an input.  Numerator and denominator up to
    [2^53] are doubles themselves, and their quotient is rounded once. *)
Definition to_double (n : number) : option float :=
  match n with
  | NaN => Some nan
  | Inf negative => Some (if negative then neg_infinity else infinity)
  | Fin q =>
      if ((Z.abs (Qnum q) <=? 2 ^ 53) && (Z.pos (Qden q) <=? 2 ^ 53))%Z
      then Some (double_of_Z (Qnum q) / double_of_Z (Z.pos (Qden q)))%float
      else None
  end.

(** [Math.round]: NaN, the infinities and the zeros are returned as they
    are, and so is every double without a fractional part; otherwise the
    result is [floor(x + 1/2)], computed exactly, and a result of zero
    takes the sign of [x]. *)
Definition math_round (x : float) : float :=
  match Prim2SF x with
  | S754_finite negative m e =>
      if (0 <=? e)%Z then x
      else
        let n := if negative then Z.neg m else Z.pos m in
        let z := ((2 * n + 2 ^ (- e)) / 2 ^ (- e + 1))%Z in
        if (z =? 0)%Z then (if negative then (-0)%float else 0%float)
        else double_of_Z z
  | _ => x
  end.

(** The weights, each literal read as the double nearest to it. *)
Definition weights : list (string * float) :=
  [ ("call_to_action", 0.4%float);
    ("structure_time", 0.25%float);
    ("content_clarity", 0.2%float);
    ("memorability", 0.15%float) ].

(** [sum + score] for the operands that are added as numbers. *)
Definition js_plus (sum : float) (score : value) : outcome float :=
  match score with
  | JNum n =>
      match to_double n with
      | Some d => Ok (sum + d)%float
      | None => OutOfModel
      end
  | JNull => Ok (sum + 0)%float
  | JBool b => Ok (sum + (if b then 1 else 0))%float
  | JUndefined => Ok (sum + nan)%float
  | JStr _ | JArr _ | JObj _ => OutOfModel
  end.

(** [scores.reduce((sum, score) => sum + score, sum0)]. *)
Fixpoint reduce_sum (scores : list value) (sum : float) : outcome float :=
  match scores with
  | [] => Ok sum
  | score :: r => sum' <- js_plus sum score ;; reduce_sum r sum'
  end.

Definition average (items : value) : outcome float :=
  scores <- object_values items ;;
  sum <- reduce_sum scores 0%float ;;
  Ok (sum / double_of_Z (Z.of_nat (List.length scores)))%float.

(** The loop over [Object.entries(weights)]. *)
Fixpoint weighted_loop (ws : list (string * float)) (kpis : obj) (overallScore : float)
  : outcome float :=
  match ws with
  | [] => Ok overallScore
  | (category, weight) :: r =>
      items <- get_prop (JObj kpis) category ;;
      categoryAvg <- average items ;;
      weighted_loop r kpis (overallScore + categoryAvg * weight)%float
  end.

(** The returned object, its [overall_score] a double. *)
Record normalized : Type := {
  kpis : obj;
  proposals : list value;
  overall_score : float;
  word_count : value;
  summary : value
}.

Definition validateEvaluationResult (result : value) : outcome normalized :=
  rawKpis <- get_prop result "kpis" ;;
  let kpis := merge_kpis rawKpis in
  overallScore <- weighted_loop weights kpis 0%float ;;
  rawProposals <- get_prop result "proposals" ;;
  proposals <- slice_map (js_or rawProposals (JArr [])) ;;
  word_count <- get_prop result "word_count" ;;
  summary <- get_prop result "summary" ;;
  Ok {| kpis := kpis;
        proposals := proposals;
        overall_score := (math_round (overallScore * 10) / 10)%float;
        word_count := js_or word_count zero;
        summary := js_or summary (JStr "Bewertung abgeschlossen") |}.

(** The score of [DatabaseService.storeEvaluation]:
    [kpiTotal / Object.keys(kpi).length], the body of the outer reducer. *)
Definition kpi_average (kpi : value) : outcome float :=
  values <- object_values kpi ;;
  kpiTotal <- reduce_sum values 0%float ;;
  keys <- object_keys kpi ;;
  Ok (kpiTotal / double_of_Z (Z.of_nat (List.length keys)))%float.

Fixpoint sum_averages (kpiValues : list value) (sum : float) : outcome float :=
  match kpiValues with
  | [] => Ok sum
  | kpi :: r => a <- kpi_average kpi ;; sum_averages r (sum + a)%float
  end.

Definition overallScore (kpi_scores : value) : outcome float :=
  kpiValues <- object_values kpi_scores ;;
  total <- sum_averages kpiValues 0%float ;;
  Ok (total / double_of_Z (Z.of_nat (List.length kpiValues)))%float.

End Doubles.

(** The sub-criterion values of a category as doubles, when all of them
    are numbers. *)
Fixpoint all_double (l : list value) : option (list float) :=
  match l with
  | [] => Some []
  | JNum n :: r =>
      match Doubles.to_double n, all_double r with
      | Some d, Some ds => Some (d :: ds)
      | _, _ => None
      end
  | _ :: _ => None
  end.

Definition double_values (v : value) : option (list float) :=
  if nullish v then None else all_double (map snd (own_props v)).

(** The sum of doubles from the left, starting at zero. *)
Definition dsum (l : list float) : float := fold_left PrimFloat.add l 0%float.

(** The mean in doubles; [0 / 0] for no values, which is NaN. *)
Definition dmean (l : list float) : float :=
  (dsum l / Doubles.double_of_Z (Z.of_nat (List.length l)))%float.

(** The weighted sum of the four means in doubles, each product added to
    the running total in the order of the weights. *)
Definition dweighted (cta st cc mem : list float) : float :=
  (0 + dmean cta * 0.4 + dmean st * 0.25 + dmean cc * 0.2 + dmean mem * 0.15)%float.

(** One decimal place by [Math.round(x * 10) / 10], in doubles. *)
Definition dround1 (x : float) : float := (Doubles.math_round (x * 10) / 10)%float.

(** The values of each category of [kpi_scores], in order, as doubles. *)
Definition category_doubles (kpi_scores : value) (dss : list (list float)) : Prop :=
  nullish kpi_scores = false /\
  Forall2 (fun v ds => double_values v = Some ds) (map snd (own_props kpi_scores)) dss.

(** 'should calculate weighted overall score correctly' *)
Definition singleScores : value :=
  JObj
    [ ("kpis", JObj
        [ ("call_to_action", JObj [ ("score", num 80) ]);
          ("structure_time", JObj [ ("score", num 90) ]);
          ("content_clarity", JObj [ ("score", num 70) ]);
          ("memorability", JObj [ ("score", num 60) ]) ]) ].

(** 'should round overall score to 1 decimal place' *)
Definition pairedScores : value :=
  JObj
    [ ("kpis", JObj
        [ ("call_to_action", JObj [ ("score1", num 83); ("score2", num 87) ]);
          ("structure_time", JObj [ ("score1", num 77); ("score2", num 83) ]);
          ("content_clarity", JObj [ ("score1", num 71); ("score2", num 79) ]);
          ("memorability", JObj [ ("score1", num 65); ("score2", num 75) ]) ]) ].

(** Whole scores whose weighted sum is exactly 43.95. *)
Definition inexactSum : value :=
  JObj
    [ ("kpis", JObj
        [ ("call_to_action", JObj
            [ ("specific_referral_ask", num 94); ("contact_method_clarity", num 6);
              ("target_client_definition", num 39); ("actionable_request", num 48) ]);
          ("structure_time", JObj
            [ ("introduction_completeness", num 1); ("word_count_optimization", num 41);
              ("clear_flow_organization", num 43); ("time_management", num 39) ]);
          ("content_clarity", JObj
            [ ("jargon_free_language", num 75); ("single_focus_maintenance", num 100);
              ("benefit_articulation", num 6); ("credibility_markers", num 26) ]);
          ("memorability", JObj
            [ ("hook_tagline_presence", num 91); ("unique_element", num 10);
              ("concrete_examples", num 42) ]) ]) ].

(** * Properties *)

(** ** Facts about objects *)

Section Objects.

Lemma lookup_In (k : string) (o : obj) (v : value) :
  lookup k o = Some v -> In (k, v) o.
Proof.
  induction o as [|[k' v'] r IH]; simpl; [discriminate|].
  destruct (String.eqb_spec k k') as [->|_].
  - intros [= ->]. now left.
  - intros H. right. now apply IH.
Qed.

Lemma lookup_update (k k' : string) (v : value) (o : obj) :
  lookup k' (update k v o) =
  if String.eqb k' k
  then match lookup k o with Some _ => Some v | None => None end
  else lookup k' o.
Proof.
  induction o as [|[k1 v1] r IH]; simpl.
  - now destruct (String.eqb k' k).
  - destruct (String.eqb_spec k k1) as [->|Hne]; simpl.
    + now destruct (String.eqb_spec k' k1).
    + destruct (String.eqb_spec k' k1) as [->|Hne'].
      * destruct (String.eqb_spec k1 k); [congruence|reflexivity].
      * exact IH.
Qed.

Lemma lookup_insert_index (n : N) (k k' : string) (v : value) (o : obj) :
  lookup k o = None ->
  lookup k' (insert_index n k v o) = if String.eqb k' k then Some v else lookup k' o.
Proof.
  induction o as [|[k1 v1] r IH]; simpl; [reflexivity|].
  destruct (String.eqb_spec k k1) as [->|Hne]; [discriminate|]. intros Hk.
  destruct (array_index k1) as [m|]; [destruct (m <? n)%N|]; simpl;
    try reflexivity.
  destruct (String.eqb_spec k' k1) as [->|Hne'].
  - destruct (String.eqb_spec k1 k); [congruence|reflexivity].
  - now apply IH.
Qed.

Lemma lookup_app (k : string) (o o' : obj) :
  lookup k (o ++ o') = match lookup k o with Some v => Some v | None => lookup k o' end.
Proof.
  induction o as [|[k1 v1] r IH]; simpl; [reflexivity|].
  now destruct (String.eqb k k1).
Qed.

Lemma lookup_define_property (k k' : string) (v : value) (o : obj) :
  lookup k' (define_property k v o) = if String.eqb k' k then Some v else lookup k' o.
Proof.
  unfold define_property. destruct (lookup k o) as [w|] eqn:Hk.
  - rewrite lookup_update, Hk. reflexivity.
  - destruct (array_index k) as [n|].
    + now apply lookup_insert_index.
    + rewrite lookup_app. simpl.
      destruct (String.eqb_spec k' k) as [->|_].
      * now rewrite Hk.
      * now destruct (lookup k' o).
Qed.

Lemma lookup_define_all (k : string) (l target : obj) :
  NoDup (map fst l) ->
  lookup k (define_all l target) =
  match lookup k l with Some v => Some v | None => lookup k target end.
Proof.
  unfold define_all. revert target.
  induction l as [|[k1 v1] r IH]; simpl; intros target Hnd; [reflexivity|].
  inversion Hnd as [|? ? Hnotin Hnd']; subst.
  rewrite (IH _ Hnd'), lookup_define_property.
  destruct (String.eqb_spec k k1) as [->|_]; [|reflexivity].
  destruct (lookup k1 r) as [w|] eqn:Hr; [|reflexivity].
  exfalso. apply Hnotin. apply lookup_In in Hr. now apply (in_map fst) in Hr.
Qed.

Lemma lookup_define_all_cases (k : string) (l target : obj) (v : value) :
  lookup k (define_all l target) = Some v ->
  In (k, v) l \/ (lookup k l = None /\ lookup k target = Some v).
Proof.
  unfold define_all. revert target.
  induction l as [|[k1 v1] r IH]; simpl; intros target H; [now right|].
  destruct (IH _ H) as [Hin|[Hr Ht]]; [left; now right|].
  rewrite lookup_define_property in Ht.
  destruct (String.eqb_spec k k1) as [->|_].
  - injection Ht as <-. left. now left.
  - right. now split.
Qed.

Lemma lookup_define_all_keeps (k : string) (l target : obj) :
  lookup k target <> None -> lookup k (define_all l target) <> None.
Proof.
  unfold define_all. revert target.
  induction l as [|[k1 v1] r IH]; simpl; intros target H; [exact H|].
  apply IH. rewrite lookup_define_property.
  now destruct (String.eqb k k1).
Qed.

Lemma index_key_digit (i : nat) : starts_with_digit (index_key i) = true.
Proof.
  unfold index_key.
  assert (H : Nat.to_uint i <> Decimal.Nil).
  { rewrite <- (DecimalNat.Unsigned.of_to i) at 1.
    rewrite DecimalNat.Unsigned.to_of. apply DecimalFacts.unorm_nonnil. }
  destruct (Nat.to_uint i); [congruence| reflexivity ..].
Qed.

Lemma indexed_keys_digit (k : string) (v : value) (l : list value) (i : nat) :
  In (k, v) (indexed i l) -> starts_with_digit k = true.
Proof.
  revert i. induction l as [|w r IH]; simpl; intros i; [tauto|].
  intros [[= <- _]|Hin]; [apply index_key_digit | exact (IH _ Hin)].
Qed.

Lemma own_props_named (k : string) (v x : value) :
  starts_with_digit k = false -> In (k, x) (own_props v) ->
  exists o, v = JObj o /\ In (k, x) o.
Proof.
  intros Hk. destruct v; simpl; try tauto.
  - intros Hin. apply indexed_keys_digit in Hin. congruence.
  - intros Hin. apply indexed_keys_digit in Hin. congruence.
  - intros Hin. eauto.
Qed.

Lemma lookup_None_keys (k : string) (o : obj) :
  lookup k o = None -> ~ In k (map fst o).
Proof.
  induction o as [|[k' v'] r IH]; simpl; [tauto|].
  destruct (String.eqb_spec k k') as [->|Hne]; [discriminate|].
  intros H [E|Hin]; [congruence|]. now apply IH.
Qed.

Lemma keys_update (k : string) (v : value) (o : obj) :
  map fst (update k v o) = map fst o.
Proof.
  induction o as [|[k' v'] r IH]; simpl; [reflexivity|].
  destruct (String.eqb k k'); simpl; [reflexivity|now f_equal].
Qed.

Lemma keys_insert_index (n : N) (k x : string) (v : value) (o : obj) :
  In x (map fst (insert_index n k v o)) -> x = k \/ In x (map fst o).
Proof.
  induction o as [|[k' v'] r IH]; simpl.
  - intros [<-|[]]. now left.
  - destruct (array_index k') as [m|]; [destruct (m <? n)%N|]; simpl;
      try (intros [<-|[<-|H]]; tauto).
    intros [<-|H]; [tauto|]. destruct (IH H); tauto.
Qed.

Lemma NoDup_insert_index (n : N) (k : string) (v : value) (o : obj) :
  NoDup (map fst o) -> ~ In k (map fst o) -> NoDup (map fst (insert_index n k v o)).
Proof.
  induction o as [|[k' v'] r IH]; simpl; intros Hnd Hk.
  - constructor; [tauto|constructor].
  - assert (Hhead : NoDup (k :: k' :: map fst r)) by (constructor; assumption).
    destruct (array_index k') as [m|]; [destruct (m <? n)%N|]; simpl;
      try exact Hhead.
    inversion Hnd as [|? ? Hnotin Hnd']; subst. constructor.
    + intros Hin. apply keys_insert_index in Hin as [->|Hin]; tauto.
    + apply IH; tauto.
Qed.

Lemma NoDup_define_property (k : string) (v : value) (o : obj) :
  NoDup (map fst o) -> NoDup (map fst (define_property k v o)).
Proof.
  intros Hnd. unfold define_property. destruct (lookup k o) eqn:Hk.
  - now rewrite keys_update.
  - apply lookup_None_keys in Hk. destruct (array_index k).
    + now apply NoDup_insert_index.
    + rewrite map_app. simpl. apply NoDup_app; [exact Hnd|repeat constructor; tauto|].
      intros a Ha [<-|[]]. contradiction.
Qed.

Lemma NoDup_define_all (l target : obj) :
  NoDup (map fst target) -> NoDup (map fst (define_all l target)).
Proof.
  unfold define_all. revert target.
  induction l as [|[k v] r IH]; simpl; intros target H; [exact H|].
  apply IH. now apply NoDup_define_property.
Qed.

End Objects.

Section Inversion.

Lemma get_prop_ok (v : value) (k : string) :
  nullish v = false -> get_prop v k = Ok (field k v).
Proof.
  unfold get_prop, field.
  destruct v; try discriminate; intros _; now destruct (lookup k _).
Qed.

Lemma get_prop_nullish (v : value) (k : string) :
  nullish v = true -> get_prop v k = Throw TypeError.
Proof. destruct v; try discriminate; reflexivity. Qed.

Lemma bind_Ok {A B : Type} (m : outcome A) (k : A -> outcome B) (b : B) :
  bind m k = Ok b -> exists a, m = Ok a /\ k a = Ok b.
Proof. destruct m; simpl; try discriminate. eauto. Qed.

Lemma validate_inv (raw out : value) :
  validateEvaluationResult raw = Ok out ->
  nullish raw = false /\
  exists overallScore proposals,
    weighted_loop weights (merge_kpis (field "kpis" raw)) (Fin 0) = Ok overallScore /\
    slice_map (supplied_proposals raw) = Ok proposals /\
    out = result_object (merge_kpis (field "kpis" raw)) proposals overallScore
            (field "word_count" raw) (field "summary" raw).
Proof.
  unfold validateEvaluationResult. intros H.
  assert (Hn : nullish raw = false).
  { destruct (nullish raw) eqn:E; [|reflexivity].
    rewrite (get_prop_nullish _ _ E) in H. discriminate. }
  split; [exact Hn|].
  rewrite !(get_prop_ok _ _ Hn) in H. cbn [bind] in H.
  apply bind_Ok in H as (overall & Hw & H).
  apply bind_Ok in H as (ps & Hp & H).
  injection H as <-. exists overall, ps. now repeat split.
Qed.

Lemma validate_intro (raw : value) (overallScore : number) (proposals : list value) :
  nullish raw = false ->
  weighted_loop weights (merge_kpis (field "kpis" raw)) (Fin 0) = Ok overallScore ->
  slice_map (supplied_proposals raw) = Ok proposals ->
  validateEvaluationResult raw =
  Ok (result_object (merge_kpis (field "kpis" raw)) proposals overallScore
        (field "word_count" raw) (field "summary" raw)).
Proof.
  intros Hn Hw Hp. unfold validateEvaluationResult.
  rewrite !(get_prop_ok _ _ Hn). cbn [bind]. rewrite Hw. cbn [bind].
  unfold supplied_proposals in Hp. rewrite Hp. reflexivity.
Qed.

Lemma merge_kpis_define (rk : value) :
  merge_kpis rk = define_all (own_props (js_or rk (JObj []))) defaultKpis.
Proof. reflexivity. Qed.

Lemma category_cases (c : string) (P : string -> Prop) :
  In c categories ->
  P "call_to_action" -> P "structure_time" -> P "content_clarity" -> P "memorability" ->
  P c.
Proof.
  intros [<-|[<-|[<-|[<-|[]]]]]; auto.
Qed.

Lemma category_default (c : string) :
  In c categories ->
  lookup c defaultKpis = Some (JObj (map (fun s => (s, zero)) (rubric c))).
Proof.
  intros H.
  apply (category_cases c
    (fun c => lookup c defaultKpis = Some (JObj (map (fun s => (s, zero)) (rubric c)))) H);
    reflexivity.
Qed.

End Inversion.

(** ** Facts about the arithmetic *)

Section Arithmetic.

Lemma Qzero_false (q : Q) : ~ q == 0 -> Qzero q = false.
Proof.
  intros H. unfold Qzero. destruct (Qeq_bool q 0) eqn:E; [|reflexivity].
  apply Qeq_bool_iff in E. contradiction.
Qed.

Lemma all_finite_length (l : list value) (qs : list Q) :
  all_finite l = Some qs -> List.length qs = List.length l.
Proof.
  revert qs. induction l as [|v r IH]; simpl; intros qs.
  - now intros [= <-].
  - destruct (finite v); [|discriminate].
    destruct (all_finite r) as [qs'|]; [|discriminate].
    intros [= <-]. simpl. f_equal. now apply IH.
Qed.

Lemma reduce_sum_finite (l : list value) (qs : list Q) (a : Q) :
  all_finite l = Some qs ->
  exists s, reduce_sum l (Fin a) = Ok (Fin s) /\ s == a + Qsum qs.
Proof.
  revert qs a. induction l as [|v r IH]; simpl; intros qs a.
  - intros [= <-]. exists a. split; [reflexivity|]. simpl. ring.
  - destruct v as [| | |[q| |]| | |]; simpl; try discriminate.
    destruct (all_finite r) as [qs'|] eqn:Hr; [|discriminate].
    intros [= <-].
    destruct (IH qs' (Qred (a + q)) eq_refl) as (s & Hs & Es).
    exists s. split; [exact Hs|]. rewrite Es, Qred_correct. simpl. ring.
Qed.

Lemma average_finite (items : value) (qs : list Q) :
  finite_values items = Some qs -> qs <> [] ->
  exists a, average items = Ok (Fin a) /\ a == mean qs.
Proof.
  unfold finite_values, average. intros Hf Hne.
  destruct (nullish items) eqn:Hn; [discriminate|].
  assert (Hv : object_values items = Ok (map snd (own_props items))).
  { destruct items; try discriminate; reflexivity. }
  rewrite Hv. cbn [bind].
  destruct (reduce_sum_finite _ _ 0 Hf) as (s & Hs & Es).
  rewrite Hs. cbn [bind].
  pose proof (all_finite_length _ _ Hf) as Hlen.
  assert (Hpos : ~ inject_Z (Z.of_nat (List.length (map snd (own_props items)))) == 0).
  { rewrite <- Hlen. destruct qs; [congruence|].
    simpl List.length. unfold Qeq. simpl. lia. }
  unfold of_nat, num_div. rewrite (Qzero_false _ Hpos).
  eexists. split; [reflexivity|].
  rewrite Qred_correct, Es. unfold mean. rewrite Hlen.
  field. exact Hpos.
Qed.


Lemma weighted_step (kpis : obj) (c : string) (w a : Q) (r : list (string * Q))
    (qs : list Q) :
  finite_values (field c (JObj kpis)) = Some qs -> qs <> [] ->
  exists a', weighted_loop ((c, w) :: r) kpis (Fin a) = weighted_loop r kpis (Fin a')
             /\ a' == a + mean qs * w.
Proof.
  intros Hf Hne. cbn [weighted_loop].
  rewrite (get_prop_ok (JObj kpis) c eq_refl). cbn [bind].
  destruct (average_finite _ _ Hf Hne) as (m & Hm & Em).
  rewrite Hm. cbn [bind num_mul num_add].
  eexists. split; [reflexivity|].
  now rewrite !Qred_correct, Em.
Qed.

Lemma weighted_loop_finite (kpis : obj) (cta st cc mem : list Q) :
  finite_values (field "call_to_action" (JObj kpis)) = Some cta -> cta <> [] ->
  finite_values (field "structure_time" (JObj kpis)) = Some st -> st <> [] ->
  finite_values (field "content_clarity" (JObj kpis)) = Some cc -> cc <> [] ->
  finite_values (field "memorability" (JObj kpis)) = Some mem -> mem <> [] ->
  exists o, weighted_loop weights kpis (Fin 0) = Ok (Fin o)
            /\ o == weighted_sum cta st cc mem.
Proof.
  intros H1 N1 H2 N2 H3 N3 H4 N4. unfold weights.
  destruct (weighted_step kpis _ (2 # 5) 0 [("structure_time", 1 # 4);
    ("content_clarity", 1 # 5); ("memorability", 3 # 20)] _ H1 N1) as (a1 & -> & E1).
  destruct (weighted_step kpis _ (1 # 4) a1 [("content_clarity", 1 # 5);
    ("memorability", 3 # 20)] _ H2 N2) as (a2 & -> & E2).
  destruct (weighted_step kpis _ (1 # 5) a2 [("memorability", 3 # 20)] _ H3 N3)
    as (a3 & -> & E3).
  destruct (weighted_step kpis _ (3 # 20) a3 [] _ H4 N4) as (a4 & -> & E4).
  exists a4. split; [reflexivity|].
  rewrite E4, E3, E2, E1. unfold weighted_sum.
  setoid_replace (40 # 100) with (2 # 5) by reflexivity.
  setoid_replace (25 # 100) with (1 # 4) by reflexivity.
  setoid_replace (20 # 100) with (1 # 5) by reflexivity.
  setoid_replace (15 # 100) with (3 # 20) by reflexivity.
  ring.
Qed.

Lemma final_round (o x : Q) :
  o == x ->
  exists q, num_div (math_round (num_mul (Fin o) (Fin 10))) (Fin 10) = Fin q
            /\ q == round1_half_up x.
Proof.
  intros E. eexists. split; [reflexivity|].
  rewrite Qred_correct. unfold round1_half_up.
  assert (E' : Qred (o * 10) + (1 # 2) == x * 10 + (1 # 2))
    by now rewrite Qred_correct, E.
  now rewrite (Qfloor_comp _ _ E').
Qed.

Lemma Qsum_bounds (qs : list Q) :
  Forall (fun q => 0 <= q <= 100) qs ->
  0 <= Qsum qs <= 100 * inject_Z (Z.of_nat (List.length qs)).
Proof.
  induction 1 as [|q r [Hq0 Hq1] _ [IH0 IH1]].
  - split; unfold Qle; simpl; lia.
  - cbn [Qsum fold_right List.length]. fold (Qsum r).
    rewrite Nat2Z.inj_succ. unfold Z.succ. rewrite inject_Z_plus.
    change (inject_Z 1) with 1. split; lra.
Qed.

Lemma mean_bounds (qs : list Q) :
  qs <> [] -> Forall (fun q => 0 <= q <= 100) qs -> 0 <= mean qs <= 100.
Proof.
  intros Hne Hall. destruct (Qsum_bounds qs Hall) as [H0 H1].
  assert (Hpos : 0 < inject_Z (Z.of_nat (List.length qs))).
  { destruct qs; [congruence|]. simpl List.length. unfold Qlt. simpl. lia. }
  unfold mean. split.
  - apply Qle_shift_div_l; [exact Hpos|]. lra.
  - apply Qle_shift_div_r; [exact Hpos|]. lra.
Qed.

Lemma round1_bounds (x : Q) : 0 <= x <= 100 -> 0 <= round1_half_up x <= 100.
Proof.
  intros [H0 H1]. unfold round1_half_up.
  assert (L : (0 <= Qfloor (x * 10 + (1 # 2)))%Z).
  { change 0%Z with (Qfloor (1 # 2)). apply Qfloor_resp_le. lra. }
  assert (U : (Qfloor (x * 10 + (1 # 2)) <= 1000)%Z).
  { change 1000%Z with (Qfloor (2001 # 2)). apply Qfloor_resp_le. lra. }
  rewrite Zle_Qle in L, U.
  change (inject_Z 0) with 0 in L. change (inject_Z 1000) with 1000 in U. split.
  - apply Qle_shift_div_l; [reflexivity|]. lra.
  - apply Qle_shift_div_r; [reflexivity|]. lra.
Qed.

End Arithmetic.

(** ** The merged [kpis] *)

Section Merge.

Lemma field_kpis_result (k : obj) (ps : list value) (o : number) (w s : value) :
  field "kpis" (result_object k ps o w s) = JObj k.
Proof. reflexivity. Qed.

Lemma field_proposals_result (k : obj) (ps : list value) (o : number) (w s : value) :
  field "proposals" (result_object k ps o w s) = JArr ps.
Proof. reflexivity. Qed.

Lemma field_overall_result (k : obj) (ps : list value) (o : number) (w s : value) :
  field "overall_score" (result_object k ps o w s) =
  JNum (num_div (math_round (num_mul o (Fin 10))) (Fin 10)).
Proof. reflexivity. Qed.

Lemma field_word_count_result (k : obj) (ps : list value) (o : number) (w s : value) :
  field "word_count" (result_object k ps o w s) = js_or w zero.
Proof. reflexivity. Qed.

Lemma field_summary_result (k : obj) (ps : list value) (o : number) (w s : value) :
  field "summary" (result_object k ps o w s) = js_or s (JStr "Bewertung abgeschlossen").
Proof. reflexivity. Qed.

Lemma merged_lookup (rk : value) (c : string) :
  In c categories ->
  NoDup (map fst (own_props (js_or rk (JObj [])))) ->
  lookup c (merge_kpis rk) =
  match lookup c (own_props (js_or rk (JObj []))) with
  | Some v => Some v
  | None => Some (JObj (map (fun s => (s, zero)) (rubric c)))
  end.
Proof.
  intros Hc Hnd. rewrite merge_kpis_define, (lookup_define_all _ _ _ Hnd).
  now rewrite (category_default c Hc).
Qed.

Lemma merged_cases (rk : value) (c : string) :
  In c categories ->
  exists v, lookup c (merge_kpis rk) = Some v /\
    (In (c, v) (own_props (js_or rk (JObj []))) \/
     v = JObj (map (fun s => (s, zero)) (rubric c))).
Proof.
  intros Hc. rewrite merge_kpis_define.
  destruct (lookup c (define_all (own_props (js_or rk (JObj []))) defaultKpis))
    as [v|] eqn:E.
  - exists v. split; [reflexivity|].
    destruct (lookup_define_all_cases _ _ _ _ E) as [Hin|[_ Hd]]; [now left|].
    right. rewrite (category_default c Hc) in Hd. congruence.
  - exfalso. revert E. apply lookup_define_all_keeps.
    now rewrite (category_default c Hc).
Qed.

End Merge.

(** ** The proposals *)

Section Proposals.

Lemma mapM_nth {A B : Type} (f : A -> outcome B) (l : list A) (bs : list B) :
  mapM f l = Ok bs ->
  List.length bs = List.length l /\
  forall i a, nth_error l i = Some a ->
    exists b, nth_error bs i = Some b /\ f a = Ok b.
Proof.
  revert bs. induction l as [|x r IH]; simpl; intros bs H.
  - injection H as <-. split; [reflexivity|]. intros [|i] a; discriminate.
  - apply bind_Ok in H as (b & Hb & H).
    apply bind_Ok in H as (bs' & Hbs & H). injection H as <-.
    destruct (IH _ Hbs) as [Hlen Hnth]. split; [simpl; now f_equal|].
    intros [|i] a; simpl.
    + intros [= <-]. eauto.
    + apply Hnth.
Qed.

Lemma mapM_total {A B : Type} (f : A -> outcome B) (l : list A) :
  Forall (fun a => exists b, f a = Ok b) l -> exists bs, mapM f l = Ok bs.
Proof.
  induction 1 as [|a r [b Hb] _ [bs Hbs]]; simpl.
  - eauto.
  - rewrite Hb, Hbs. simpl. eauto.
Qed.

Lemma normalize_proposal_ok (p : value) :
  nullish p = false ->
  normalize_proposal p =
  Ok (JObj
        [ ("type", js_or (field "type" p) (JStr "GENERAL_IMPROVEMENT"));
          ("title", js_or (field "title" p) (JStr "Verbesserung"));
          ("description", js_or (field "description" p) (JStr "Siehe Bewertungsdetails"));
          ("priority", if valid_priority (field "priority" p)
                       then field "priority" p else JStr "MEDIUM") ]).
Proof.
  intros Hn. unfold normalize_proposal. now rewrite !(get_prop_ok _ _ Hn).
Qed.

Lemma normalize_proposal_inv (p p' : value) :
  normalize_proposal p = Ok p' ->
  nullish p = false /\
  p' = JObj
        [ ("type", js_or (field "type" p) (JStr "GENERAL_IMPROVEMENT"));
          ("title", js_or (field "title" p) (JStr "Verbesserung"));
          ("description", js_or (field "description" p) (JStr "Siehe Bewertungsdetails"));
          ("priority", if valid_priority (field "priority" p)
                       then field "priority" p else JStr "MEDIUM") ].
Proof.
  intros H. destruct (nullish p) eqn:Hn.
  - unfold normalize_proposal in H. rewrite (get_prop_nullish _ _ Hn) in H. discriminate.
  - rewrite (normalize_proposal_ok _ Hn) in H. split; congruence.
Qed.

Lemma js_or_truthy (a b : value) : truthy a = true -> js_or a b = a.
Proof. unfold js_or. now intros ->. Qed.

Lemma js_or_falsy (a b : value) : truthy a = false -> js_or a b = b.
Proof. unfold js_or. now intros ->. Qed.

Lemma field_obj (k : string) (o : obj) :
  field k (JObj o) = match lookup k o with Some x => x | None => JUndefined end.
Proof. reflexivity. Qed.

Lemma field_absent (k : string) (v : value) :
  lookup k (own_props v) = None -> field k v = JUndefined.
Proof. unfold field. now intros ->. Qed.

Lemma valid_priority_spec (v : value) :
  valid_priority v = true <-> exists s, In s ["HIGH"; "MEDIUM"; "LOW"] /\ v = JStr s.
Proof.
  split.
  - destruct v; cbn [valid_priority]; try discriminate. intros H.
    apply existsb_exists in H as (x & Hx & E).
    apply String.eqb_eq in E. subst. eauto.
  - intros (s & Hs & ->). simpl in Hs.
    destruct Hs as [<-|[<-|[<-|[]]]]; reflexivity.
Qed.

Lemma normalize_proposal_normalized (p p' : value) :
  normalize_proposal p = Ok p' -> proposal_normalized p p'.
Proof.
  intros H. apply normalize_proposal_inv in H as [_ ->].
  unfold proposal_normalized. cbn [own_props map fst].
  repeat split.
  - intros E. now rewrite (field_absent _ _ E).
  - intros E. now rewrite (field_absent _ _ E).
  - intros E. now rewrite (field_absent _ _ E).
  - intros E. unfold field at 1. simpl. now apply js_or_truthy.
  - intros E. unfold field at 1. simpl. now apply js_or_truthy.
  - intros E. unfold field at 1. simpl. now apply js_or_truthy.
  - intros s Hs E. unfold field at 1. simpl.
    assert (V : valid_priority (field "priority" p) = true)
      by (apply valid_priority_spec; eauto).
    now rewrite V.
  - intros Hno. unfold field at 1. simpl.
    destruct (valid_priority (field "priority" p)) eqn:V; [|reflexivity].
    apply valid_priority_spec in V as (s & Hs & E). now destruct (Hno s Hs).
Qed.

Lemma normalize_proposal_defaulted (p p' : value) :
  normalize_proposal p = Ok p' -> proposal_defaulted p p'.
Proof.
  intros H. apply normalize_proposal_inv in H as [_ ->].
  repeat split; intros E; unfold field at 1; simpl; now apply js_or_falsy.
Qed.

Lemma slice_map_inv (p : value) (ps : list value) :
  slice_map p = Ok ps ->
  exists l, p = JArr l /\ mapM normalize_proposal (firstn 3 l) = Ok ps.
Proof. destruct p; simpl; try discriminate. eauto. Qed.

Lemma nth_error_firstn {A : Type} (l : list A) (n i : nat) :
  (i < n)%nat -> nth_error (firstn n l) i = nth_error l i.
Proof.
  revert n i. induction l as [|a r IH]; intros [|n] [|i] H; simpl; try lia;
    try reflexivity.
  apply IH. lia.
Qed.

Lemma mapM_Forall {A B : Type} (f : A -> outcome B) (l : list A) (bs : list B) :
  mapM f l = Ok bs -> Forall (fun b => exists a, f a = Ok b) bs.
Proof.
  revert bs. induction l as [|x r IH]; simpl; intros bs H.
  - injection H as <-. constructor.
  - apply bind_Ok in H as (b & Hb & H).
    apply bind_Ok in H as (bs' & Hbs & H). injection H as <-.
    constructor; eauto.
Qed.

Lemma Forall_firstn_of {A : Type} (P : A -> Prop) (n : nat) (l : list A) :
  Forall P l -> Forall P (firstn n l).
Proof.
  intros H. rewrite <- (firstn_skipn n l) in H.
  now apply Forall_app in H as [H _].
Qed.

Lemma normalized_again (ps : list value) :
  Forall (fun b => exists a, normalize_proposal a = Ok b) ps ->
  exists ps', slice_map (JArr ps) = Ok ps'.
Proof.
  intros H. apply mapM_total. apply Forall_firstn_of.
  apply Forall_impl with (2 := H). intros b (a & Ha).
  apply normalize_proposal_inv in Ha as [_ ->].
  rewrite normalize_proposal_ok by reflexivity. eauto.
Qed.

End Proposals.

(** ** Primitive inputs *)

Section Primitives.

Lemma field_primitive (k : string) (v : value) :
  primitive v = true -> starts_with_digit k = false -> field k v = JUndefined.
Proof.
  intros Hp Hk. unfold field.
  destruct (lookup k (own_props v)) as [x|] eqn:E; [|reflexivity].
  apply lookup_In in E. destruct (own_props_named _ _ _ Hk E) as (o & -> & _).
  discriminate.
Qed.

End Primitives.

(** ** The shape of the result *)

(** C1, as the code has it.  The merge is one level deep: a category that
    [raw.kpis] supplies replaces the zero template as a whole and is
    returned as supplied, its missing sub-criteria are not added; a category
    that [raw.kpis] does not supply is the template, with every rubric
    sub-criterion at 0.  All four category keys are present either way.
    (The keys of [raw.kpis] are distinct, as the keys of an object are.) *)
Theorem C1_merge_is_per_category (raw out : value) (c : string) :
  validateEvaluationResult raw = Ok out ->
  NoDup (map fst (supplied_kpis raw)) ->
  In c categories ->
  lookup c (own_props (field "kpis" out)) <> None /\
  match lookup c (supplied_kpis raw) with
  | Some v => field c (field "kpis" out) = v
  | None =>
      field c (field "kpis" out) = JObj (map (fun s => (s, zero)) (rubric c)) /\
      forall s, In s (rubric c) -> field s (field c (field "kpis" out)) = zero
  end.
Proof.
  intros Hv Hnd Hc.
  destruct (validate_inv _ _ Hv) as (_ & o & ps & _ & _ & ->).
  rewrite field_kpis_result.
  pose proof (merged_lookup (field "kpis" raw) c Hc Hnd) as L.
  fold (supplied_kpis raw) in L.
  assert (F : field c (JObj (merge_kpis (field "kpis" raw))) =
              match lookup c (supplied_kpis raw) with
              | Some v => v
              | None => JObj (map (fun s => (s, zero)) (rubric c))
              end).
  { unfold field at 1. cbn [own_props]. rewrite L.
    now destruct (lookup c (supplied_kpis raw)). }
  split.
  { cbn [own_props]. rewrite L. now destruct (lookup c (supplied_kpis raw)). }
  rewrite F. destruct (lookup c (supplied_kpis raw)) as [v|]; [reflexivity|].
  split; [reflexivity|].
  apply (category_cases c
    (fun c => forall s, In s (rubric c) ->
       field s (JObj (map (fun s => (s, zero)) (rubric c))) = zero) Hc);
    intros s Hs; simpl in Hs;
    repeat (destruct Hs as [<-|Hs]; [reflexivity|]); destruct Hs.
Qed.

(** C1 at the input of the unit test 'should fill missing KPI categories
    with defaults': the three categories that are not supplied are the
    template, [call_to_action] is returned as supplied. *)
Lemma C1_merge_is_per_category_witness :
  field "call_to_action" (field "kpis" (returned incompleteResult))
    = JObj [("specific_referral_ask", num 80)] /\
  field "introduction_completeness"
    (field "structure_time" (field "kpis" (returned incompleteResult))) = zero.
Proof.
  assert (E : validateEvaluationResult incompleteResult = Ok (returned incompleteResult))
    by (vm_compute; reflexivity).
  assert (Hnd : NoDup (map fst (supplied_kpis incompleteResult))).
  { repeat constructor. simpl. tauto. }
  split.
  - exact (proj2 (C1_merge_is_per_category incompleteResult _ "call_to_action"
                    E Hnd (or_introl eq_refl))).
  - refine (proj2 (proj2 (C1_merge_is_per_category incompleteResult _ "structure_time"
                    E Hnd (or_intror (or_introl eq_refl)))) _ _).
    now left.
Defined.

(** C1 as stated fails: [call_to_action] is supplied with one sub-criterion
    only, and the other three are not defaulted to 0, they are missing from
    the result; the category counts as 80, not as (80 + 0 + 0 + 0) / 4. *)
Lemma C1_missing_subcriteria_not_defaulted :
  exists out,
    validateEvaluationResult incompleteResult = Ok out /\
    lookup "contact_method_clarity"
      (own_props (field "call_to_action" (field "kpis" out))) = None /\
    field "overall_score" out = num 32.
Proof. eexists. split; [vm_compute; reflexivity|]. split; reflexivity. Qed.

(** C3, as the code has it.  There is no check of the top-level input and
    no error of its own: [null] and [undefined] fail with the [TypeError] of
    the first property access, and every other primitive (a boolean, a
    number, a string) has no [kpis], [proposals], [word_count] or [summary],
    so it is normalized to the all-default result without an error. *)
Theorem C3_primitive_top_level (raw : value) :
  primitive raw = true ->
  validateEvaluationResult raw =
  if nullish raw then Throw TypeError else Ok all_defaults.
Proof.
  intros Hp. destruct (nullish raw) eqn:Hn.
  - unfold validateEvaluationResult. now rewrite (get_prop_nullish _ _ Hn).
  - pose proof (field_primitive "kpis" _ Hp eq_refl) as Fk.
    pose proof (field_primitive "proposals" _ Hp eq_refl) as Fp.
    pose proof (field_primitive "word_count" _ Hp eq_refl) as Fw.
    pose proof (field_primitive "summary" _ Hp eq_refl) as Fs.
    rewrite (validate_intro raw (Fin 0) []); try assumption.
    + now rewrite Fk, Fw, Fs.
    + now rewrite Fk.
    + unfold supplied_proposals. now rewrite Fp.
Qed.

Lemma C3_primitive_top_level_witness :
  validateEvaluationResult (JStr "abc") = Ok all_defaults /\
  validateEvaluationResult JNull = Throw TypeError.
Proof.
  split.
  - exact (C3_primitive_top_level (JStr "abc") eq_refl).
  - exact (C3_primitive_top_level JNull eq_refl).
Defined.

(** C3 as stated fails: the number 5 is a primitive, and it is normalized
    instead of being rejected. *)
Lemma C3_number_is_not_rejected :
  validateEvaluationResult (num 5) = Ok all_defaults /\
  field "overall_score" all_defaults = num 0 /\
  field "summary" all_defaults = JStr "Bewertung abgeschlossen".
Proof. repeat split. Qed.

(** C7.  The returned proposals are the first three of [raw.proposals]
    (none when [proposals] is missing), each normalized in its place. *)
Theorem C7_proposals_truncated_and_normalized (raw out : value) :
  validateEvaluationResult raw = Ok out ->
  exists l ps,
    supplied_proposals raw = JArr l /\
    field "proposals" out = JArr ps /\
    List.length ps = Nat.min 3 (List.length l) /\
    (lookup "proposals" (own_props raw) = None -> ps = []) /\
    forall i p, (i < 3)%nat -> nth_error l i = Some p ->
      exists p', nth_error ps i = Some p' /\ proposal_normalized p p'.
Proof.
  intros Hv. destruct (validate_inv _ _ Hv) as (_ & o & ps & _ & Hs & ->).
  apply slice_map_inv in Hs as (l & Hl & Hm).
  destruct (mapM_nth _ _ _ Hm) as [Hlen Hnth].
  exists l, ps. split; [exact Hl|]. split; [reflexivity|].
  split; [now rewrite Hlen, length_firstn|]. split.
  - intros Habs. unfold supplied_proposals in Hl.
    rewrite (field_absent _ _ Habs) in Hl. injection Hl as <-.
    simpl in Hlen. now destruct ps.
  - intros i p Hi Hp. rewrite <- (nth_error_firstn l 3 i Hi) in Hp.
    destruct (Hnth i p Hp) as (p' & Hp' & Hn).
    exists p'. split; [exact Hp'|]. now apply normalize_proposal_normalized.
Qed.

(** C7 at five proposals, the first with priority "INVALID": three are
    returned and the first has priority "MEDIUM". *)
Lemma C7_proposals_truncated_and_normalized_witness :
  exists ps p',
    field "proposals" (returned resultWithManyProposals) = JArr ps /\
    List.length ps = 3%nat /\
    nth_error ps 0 = Some p' /\
    field "priority" p' = JStr "MEDIUM" /\
    field "type" p' = JStr "TYPE1".
Proof.
  assert (E : validateEvaluationResult resultWithManyProposals
              = Ok (returned resultWithManyProposals)) by (vm_compute; reflexivity).
  destruct (C7_proposals_truncated_and_normalized _ _ E)
    as (l & ps & Hl & Hps & Hlen & _ & Hnth).
  injection Hl as <-.
  destruct (Hnth 0%nat _ (Nat.lt_0_succ 2) eq_refl)
    as (p' & Hp' & _ & _ & _ & _ & Hty & _ & _ & _ & Hpr).
  exists ps, p'. split; [exact Hps|]. split; [exact Hlen|]. split; [exact Hp'|].
  split.
  - apply Hpr. intros s [<-|[<-|[<-|[]]]]; discriminate.
  - now apply Hty.
Defined.

(** C8.  A missing [word_count] becomes 0 and a missing [summary] the fixed
    text; a [word_count] that is a number and a [summary] that is a
    non-empty string are returned as they are. *)
Theorem C8_word_count_and_summary (raw out : value) :
  validateEvaluationResult raw = Ok out ->
  (lookup "word_count" (own_props raw) = None -> field "word_count" out = zero) /\
  (lookup "summary" (own_props raw) = None ->
     field "summary" out = JStr "Bewertung abgeschlossen") /\
  (forall n, field "word_count" raw = JNum n -> n <> NaN ->
     same_value (field "word_count" out) (JNum n)) /\
  (forall s, field "summary" raw = JStr s -> s <> "" -> field "summary" out = JStr s).
Proof.
  intros Hv. destruct (validate_inv _ _ Hv) as (_ & o & ps & _ & _ & ->).
  rewrite field_word_count_result, field_summary_result. repeat split.
  - intros E. now rewrite (field_absent _ _ E).
  - intros E. now rewrite (field_absent _ _ E).
  - intros n -> Hn. destruct n as [q| |b]; [|congruence|reflexivity].
    unfold js_or, truthy, same_value, zero.
    destruct (Qzero q) eqn:Z; simpl; [|reflexivity].
    apply Qeq_bool_iff in Z. now symmetry.
  - intros s0 -> Hs. unfold js_or. simpl.
    destruct (String.eqb_spec s0 ""); [contradiction|reflexivity].
Qed.

(** C8 at the complete test input (105 words, a summary) and at an input
    without either. *)
Lemma C8_word_count_and_summary_witness :
  same_value (field "word_count" (returned mockResult)) (num 105) /\
  field "summary" (returned mockResult) = JStr "Guter Pitch mit Verbesserungspotential" /\
  field "word_count" (returned incompleteResult) = zero /\
  field "summary" (returned incompleteResult) = JStr "Bewertung abgeschlossen".
Proof.
  assert (E : validateEvaluationResult mockResult = Ok (returned mockResult))
    by (vm_compute; reflexivity).
  assert (E' : validateEvaluationResult incompleteResult = Ok (returned incompleteResult))
    by (vm_compute; reflexivity).
  destruct (C8_word_count_and_summary _ _ E) as (_ & _ & Hw & Hs).
  destruct (C8_word_count_and_summary _ _ E') as (Hw' & Hs' & _ & _).
  split; [apply Hw; [reflexivity|discriminate]|].
  split; [apply Hs; [reflexivity|discriminate]|].
  split; [apply Hw'; reflexivity | apply Hs'; reflexivity].
Defined.

(** C9.  The defaults of [word_count], [summary] and of a proposal's
    [type], [title] and [description] replace every falsy value (a missing
    field, but also "", 0, NaN, null or false); a truthy [word_count] of any
    type is returned as it is. *)
Theorem C9_falsy_fields_are_defaulted (raw out : value) :
  validateEvaluationResult raw = Ok out ->
  (truthy (field "word_count" raw) = false -> field "word_count" out = zero) /\
  (truthy (field "summary" raw) = false ->
     field "summary" out = JStr "Bewertung abgeschlossen") /\
  (truthy (field "word_count" raw) = true ->
     field "word_count" out = field "word_count" raw) /\
  (forall i p, (i < 3)%nat -> nth_error (items (supplied_proposals raw)) i = Some p ->
     exists p', nth_error (items (field "proposals" out)) i = Some p' /\
                proposal_defaulted p p').
Proof.
  intros Hv. destruct (validate_inv _ _ Hv) as (_ & o & ps & _ & Hs & ->).
  rewrite field_word_count_result, field_summary_result, field_proposals_result.
  repeat split.
  - apply js_or_falsy.
  - apply js_or_falsy.
  - apply js_or_truthy.
  - apply slice_map_inv in Hs as (l & -> & Hm).
    destruct (mapM_nth _ _ _ Hm) as [_ Hnth].
    intros i p Hi Hp. simpl in Hp. rewrite <- (nth_error_firstn l 3 i Hi) in Hp.
    destruct (Hnth i p Hp) as (p' & Hp' & Hn).
    exists p'. split; [exact Hp'|]. now apply normalize_proposal_defaulted.
Qed.

(** C9 at an input with an empty [type], [title], [description] and
    [summary] and a NaN [word_count], and at a [word_count] that is a
    string. *)
Lemma C9_falsy_fields_are_defaulted_witness :
  field "word_count" (returned falsyResult) = zero /\
  field "summary" (returned falsyResult) = JStr "Bewertung abgeschlossen" /\
  (exists p', nth_error (items (field "proposals" (returned falsyResult))) 0 = Some p' /\
     field "type" p' = JStr "GENERAL_IMPROVEMENT" /\
     field "title" p' = JStr "Verbesserung" /\
     field "description" p' = JStr "Siehe Bewertungsdetails") /\
  field "word_count" (returned (JObj [("word_count", JStr "many")])) = JStr "many".
Proof.
  assert (E : validateEvaluationResult falsyResult = Ok (returned falsyResult))
    by (vm_compute; reflexivity).
  assert (E' : validateEvaluationResult (JObj [("word_count", JStr "many")])
               = Ok (returned (JObj [("word_count", JStr "many")])))
    by (vm_compute; reflexivity).
  destruct (C9_falsy_fields_are_defaulted _ _ E) as (Hw & Hs & _ & Hp).
  destruct (C9_falsy_fields_are_defaulted _ _ E') as (_ & _ & Hw' & _).
  split; [apply Hw; reflexivity|]. split; [apply Hs; reflexivity|]. split.
  - destruct (Hp 0%nat _ (Nat.lt_0_succ 2) eq_refl) as (p' & Hp' & H1 & H2 & H3).
    exists p'. split; [exact Hp'|].
    split; [apply H1; reflexivity|]. split; [apply H2; reflexivity|apply H3; reflexivity].
  - apply Hw'. reflexivity.
Defined.

(** ** The overall score *)

Section OverallScore.

Lemma overall_score_formula (raw out : value) (cta st cc mem : list Q) :
  validateEvaluationResult raw = Ok out ->
  finite_values (field "call_to_action" (field "kpis" out)) = Some cta -> cta <> [] ->
  finite_values (field "structure_time" (field "kpis" out)) = Some st -> st <> [] ->
  finite_values (field "content_clarity" (field "kpis" out)) = Some cc -> cc <> [] ->
  finite_values (field "memorability" (field "kpis" out)) = Some mem -> mem <> [] ->
  exists q, field "overall_score" out = JNum (Fin q) /\
            q == round1_half_up (weighted_sum cta st cc mem).
Proof.
  intros Hv. destruct (validate_inv _ _ Hv) as (_ & o & ps & Hw & _ & ->).
  rewrite field_kpis_result, field_overall_result.
  intros H1 N1 H2 N2 H3 N3 H4 N4.
  destruct (weighted_loop_finite _ _ _ _ _ H1 N1 H2 N2 H3 N3 H4 N4) as (x & Hx & Ex).
  rewrite Hx in Hw. injection Hw as <-.
  destruct (final_round x _ Ex) as (q & -> & Eq). eauto.
Qed.

Lemma merged_category_in_range (raw : value) (c : string) :
  (forall v, In (c, v) (supplied_kpis raw) -> category_in_range v) ->
  In c categories ->
  category_in_range (field c (JObj (merge_kpis (field "kpis" raw)))).
Proof.
  intros Hs Hc. destruct (merged_cases (field "kpis" raw) c Hc) as (v & Hl & Hcase).
  unfold field at 1. cbn [own_props]. rewrite Hl.
  destruct Hcase as [Hin| ->]; [now apply Hs|].
  apply (category_cases c
    (fun c => category_in_range (JObj (map (fun s => (s, zero)) (rubric c)))) Hc);
    (eexists; split; [reflexivity|]; split; [discriminate|]);
    repeat constructor; unfold Qle; simpl; lia.
Qed.

Lemma weighted_loop_ext (ws : list (string * Q)) (k1 k2 : obj) (a : number) :
  (forall c, In c (map fst ws) -> lookup c k1 = lookup c k2) ->
  weighted_loop ws k1 a = weighted_loop ws k2 a.
Proof.
  revert a. induction ws as [|[c w] r IH]; simpl; intros a H; [reflexivity|].
  rewrite (H c (or_introl eq_refl)).
  destruct (lookup c k2); cbn [bind];
    (destruct (average _); cbn [bind]; [apply IH; auto|reflexivity..]).
Qed.

Lemma merge_kpis_NoDup (rk : value) : NoDup (map fst (merge_kpis rk)).
Proof.
  rewrite merge_kpis_define. apply NoDup_define_all.
  repeat constructor; simpl; intuition discriminate.
Qed.

Lemma merge_kpis_again (rk : value) (c : string) :
  In c categories ->
  lookup c (merge_kpis (JObj (merge_kpis rk))) = lookup c (merge_kpis rk).
Proof.
  intros Hc. rewrite (merged_lookup (JObj (merge_kpis rk)) c Hc (merge_kpis_NoDup rk)).
  cbn [js_or truthy own_props].
  destruct (merged_cases rk c Hc) as (v & -> & _). reflexivity.
Qed.

End OverallScore.

(** ** The overall score in doubles *)

Section DoubleScore.

Lemma all_double_length (vs : list value) (ds : list float) :
  all_double vs = Some ds -> List.length ds = List.length vs.
Proof.
  revert ds. induction vs as [|v r IH]; simpl; intros ds H.
  - now injection H as <-.
  - destruct v; try discriminate.
    destruct (Doubles.to_double n); [|discriminate].
    destruct (all_double r) as [ds'|]; [|discriminate].
    injection H as <-. simpl. f_equal. now apply IH.
Qed.

Lemma reduce_sum_double (vs : list value) (ds : list float) (a : float) :
  all_double vs = Some ds ->
  Doubles.reduce_sum vs a = Ok (fold_left PrimFloat.add ds a).
Proof.
  revert ds a. induction vs as [|v r IH]; simpl; intros ds a H.
  - now injection H as <-.
  - destruct v; try discriminate.
    destruct (Doubles.to_double n) as [d|] eqn:Hd; [|discriminate].
    destruct (all_double r) as [ds'|]; [|discriminate].
    injection H as <-. unfold Doubles.js_plus. rewrite Hd.
    cbn [bind fold_left]. now apply IH.
Qed.

Lemma average_double (items : value) (ds : list float) :
  double_values items = Some ds -> Doubles.average items = Ok (dmean ds).
Proof.
  unfold double_values, Doubles.average. intros H.
  destruct (nullish items) eqn:Hn; [discriminate|].
  assert (Hv : object_values items = Ok (map snd (own_props items)))
    by (destruct items; try discriminate; reflexivity).
  rewrite Hv. cbn [bind]. rewrite (reduce_sum_double _ _ _ H). cbn [bind].
  unfold dmean, dsum. now rewrite (all_double_length _ _ H).
Qed.

Lemma weighted_loop_double (kpis : obj) (cta st cc mem : list float) :
  double_values (field "call_to_action" (JObj kpis)) = Some cta ->
  double_values (field "structure_time" (JObj kpis)) = Some st ->
  double_values (field "content_clarity" (JObj kpis)) = Some cc ->
  double_values (field "memorability" (JObj kpis)) = Some mem ->
  Doubles.weighted_loop Doubles.weights kpis 0%float = Ok (dweighted cta st cc mem).
Proof.
  intros H1 H2 H3 H4. unfold Doubles.weights. cbn [Doubles.weighted_loop].
  rewrite !(get_prop_ok (JObj kpis) _ eq_refl). cbn [bind].
  rewrite (average_double _ _ H1). cbn [bind].
  rewrite (average_double _ _ H2). cbn [bind].
  rewrite (average_double _ _ H3). cbn [bind].
  rewrite (average_double _ _ H4). cbn [bind].
  reflexivity.
Qed.

End DoubleScore.

(** C4, as the code has it.  For an input that is normalized and whose
    four merged categories hold numbers, [overall_score] is computed in
    double arithmetic: each category mean is the sum of its values, added
    from the left starting at 0, divided by their number; the means are
    multiplied by 0.4, 0.25, 0.2 and 0.15 and added to a total that starts
    at 0, in this order; the total is rounded by [Math.round(x * 10) / 10],
    a tie going up.  Every operation rounds to the nearest double. *)
Theorem C4_overall_score_is_rounded_weighted_sum
    (raw : value) (cta st cc mem : list float) :
  nullish raw = false ->
  proposals_usable raw ->
  double_values (field "call_to_action" (JObj (merge_kpis (field "kpis" raw)))) = Some cta ->
  double_values (field "structure_time" (JObj (merge_kpis (field "kpis" raw)))) = Some st ->
  double_values (field "content_clarity" (JObj (merge_kpis (field "kpis" raw)))) = Some cc ->
  double_values (field "memorability" (JObj (merge_kpis (field "kpis" raw)))) = Some mem ->
  exists out,
    Doubles.validateEvaluationResult raw = Ok out /\
    Doubles.kpis out = merge_kpis (field "kpis" raw) /\
    Doubles.overall_score out = dround1 (dweighted cta st cc mem).
Proof.
  intros Hn Hp H1 H2 H3 H4. unfold Doubles.validateEvaluationResult.
  rewrite !(get_prop_ok raw _ Hn). cbn [bind].
  rewrite (weighted_loop_double _ _ _ _ _ H1 H2 H3 H4). cbn [bind].
  destruct Hp as (l & Hl & Hall). unfold supplied_proposals in Hl.
  rewrite Hl. cbn [slice_map].
  destruct (mapM_total normalize_proposal (firstn 3 l)) as (ps & ->).
  { apply Forall_impl with (2 := Hall). intros p Hp.
    rewrite (normalize_proposal_ok _ Hp). eauto. }
  cbn [bind]. eexists. split; [reflexivity|]. split; reflexivity.
Qed.

(** C4 at the complete test input: (85,90,80,88), (75,85,80,90),
    (95,88,82,78), (60,70,65) give the double 81.8. *)
Lemma C4_overall_score_is_rounded_weighted_sum_witness :
  exists out,
    Doubles.validateEvaluationResult mockResult = Ok out /\
    Doubles.overall_score out = 81.8%float.
Proof.
  destruct (C4_overall_score_is_rounded_weighted_sum mockResult
              [85; 90; 80; 88]%float [75; 85; 80; 90]%float
              [95; 88; 82; 78]%float [60; 70; 65]%float eq_refl)
    as (out & Ho & _ & Hs).
  - eexists. split; [reflexivity|]. repeat constructor.
  - vm_compute. reflexivity.
  - vm_compute. reflexivity.
  - vm_compute. reflexivity.
  - vm_compute. reflexivity.
  - exists out. split; [exact Ho|]. rewrite Hs. vm_compute. reflexivity.
Defined.

(** C4 as stated fails twice.  The whole scores (94,6,39,48),
    (1,41,43,39), (75,100,6,26), (91,10,42) have the weighted sum 43.95,
    which rounds to 44.0; the code accumulates 43.949999999999996 and
    returns 43.9.  And with the weighted sum -0.05 the tie -0.5 goes up:
    the code returns -0 where rounding away from zero gives -0.1. *)
Lemma C4_double_sum_and_negative_tie :
  (exists out,
     Doubles.validateEvaluationResult inexactSum = Ok out /\
     Doubles.overall_score out = 43.9%float /\
     PrimFloat.eqb (Doubles.overall_score out) 44%float = false) /\
  weighted_sum [94; 6; 39; 48] [1; 41; 43; 39] [75; 100; 6; 26] [91; 10; 42]
    == 4395 # 100 /\
  round1_half_away
    (weighted_sum [94; 6; 39; 48] [1; 41; 43; 39] [75; 100; 6; 26] [91; 10; 42])
    == 44 /\
  (exists out,
     Doubles.validateEvaluationResult negativeTie = Ok out /\
     Doubles.overall_score out = (-0)%float) /\
  round1_half_away (weighted_sum [0; 0; 0; 0] [0; 0; 0; 0] [-1; 0; 0; 0] [0; 0; 0])
    == - (1 # 10).
Proof.
  split; [|split; [|split; [|split]]].
  - eexists. split; [vm_compute; reflexivity|]. split; vm_compute; reflexivity.
  - vm_compute. reflexivity.
  - vm_compute. reflexivity.
  - eexists. split; vm_compute; reflexivity.
  - vm_compute. reflexivity.
Qed.

(** The expectations of the other two tests of the overall score, 77.5
    and 79.5, are met in doubles as well. *)
Lemma overall_score_of_the_unit_tests :
  (exists out, Doubles.validateEvaluationResult singleScores = Ok out /\
               Doubles.overall_score out = 77.5%float) /\
  (exists out, Doubles.validateEvaluationResult pairedScores = Ok out /\
               Doubles.overall_score out = 79.5%float).
Proof. split; eexists; split; vm_compute; reflexivity. Qed.

(** C5, as the code has it.  When every supplied category among the four
    is an object with at least one sub-criterion and all its values are
    numbers in [0, 100], [overall_score] is a number in [0, 100]. *)
Theorem C5_overall_score_in_range (raw out : value) :
  validateEvaluationResult raw = Ok out ->
  (forall c v, In c categories -> In (c, v) (supplied_kpis raw) -> category_in_range v) ->
  exists q, field "overall_score" out = JNum (Fin q) /\ 0 <= q <= 100.
Proof.
  intros Hv Hs.
  assert (R : forall c, In c categories ->
            category_in_range (field c (field "kpis" out))).
  { intros c Hc. destruct (validate_inv _ _ Hv) as (_ & o & ps & _ & _ & ->).
    rewrite field_kpis_result. apply merged_category_in_range; [|exact Hc].
    intros v. now apply Hs. }
  destruct (R "call_to_action") as (cta & H1 & N1 & B1); [simpl; tauto|].
  destruct (R "structure_time") as (st & H2 & N2 & B2); [simpl; tauto|].
  destruct (R "content_clarity") as (cc & H3 & N3 & B3); [simpl; tauto|].
  destruct (R "memorability") as (mem & H4 & N4 & B4); [simpl; tauto|].
  destruct (overall_score_formula _ _ _ _ _ _ Hv H1 N1 H2 N2 H3 N3 H4 N4)
    as (q & Hq & Eq).
  exists q. split; [exact Hq|]. rewrite Eq. apply round1_bounds.
  pose proof (mean_bounds _ N1 B1). pose proof (mean_bounds _ N2 B2).
  pose proof (mean_bounds _ N3 B3). pose proof (mean_bounds _ N4 B4).
  unfold weighted_sum. split; lra.
Qed.

(** C5 at the complete test input. *)
Lemma C5_overall_score_in_range_witness :
  exists q, field "overall_score" (returned mockResult) = JNum (Fin q) /\ 0 <= q <= 100.
Proof.
  assert (E : validateEvaluationResult mockResult = Ok (returned mockResult))
    by (vm_compute; reflexivity).
  apply (C5_overall_score_in_range mockResult _ E).
  intros c v _ Hin. simpl in Hin.
  destruct Hin as [[= <- <-]|[[= <- <-]|[[= <- <-]|[[= <- <-]|[]]]]];
    (eexists; split; [reflexivity|]; split; [discriminate|]);
    repeat constructor; unfold Qle; simpl; lia.
Defined.

(** C5 as stated fails: a supplied category without sub-criteria has no
    number outside [0, 100], its average is 0 / 0, and [overall_score] is
    NaN. *)
Lemma C5_empty_category_gives_NaN :
  supplied_numbers_in_range emptyCategory /\
  exists out,
    validateEvaluationResult emptyCategory = Ok out /\
    field "overall_score" out = JNum NaN.
Proof.
  split.
  - intros c v s n Hin Hin'. simpl in Hin.
    destruct Hin as [[= <- <-]|[]]. destruct Hin'.
  - eexists. split; [vm_compute; reflexivity|reflexivity].
Qed.

(** C6.  A returned result is accepted again, and normalizing it yields
    the same [overall_score] and the same [kpis] categories. *)
Theorem C6_overall_score_idempotent (raw out : value) :
  validateEvaluationResult raw = Ok out ->
  exists out',
    validateEvaluationResult out = Ok out' /\
    field "overall_score" out' = field "overall_score" out /\
    forall c, In c categories ->
      field c (field "kpis" out') = field c (field "kpis" out).
Proof.
  intros Hv. destruct (validate_inv _ _ Hv) as (_ & o & ps & Hw & Hs & ->).
  apply slice_map_inv in Hs as (l & _ & Hm).
  destruct (normalized_again ps (mapM_Forall _ _ _ Hm)) as (ps' & Hps').
  eexists. split; [|split].
  - apply validate_intro with (overallScore := o) (proposals := ps').
    + reflexivity.
    + rewrite field_kpis_result, <- Hw. apply weighted_loop_ext.
      intros c Hc. now apply merge_kpis_again.
    + unfold supplied_proposals. rewrite field_proposals_result. exact Hps'.
  - now rewrite !field_overall_result.
  - intros c Hc. rewrite !field_kpis_result, !field_obj.
    now rewrite (merge_kpis_again _ c Hc).
Qed.

(** C6 at the complete test input: 81.8 both times. *)
Lemma C6_overall_score_idempotent_witness :
  field "overall_score" (returned (returned mockResult)) = JNum (Fin (409 # 5)) /\
  field "overall_score" (returned mockResult) = JNum (Fin (409 # 5)).
Proof.
  assert (E : validateEvaluationResult mockResult = Ok (returned mockResult))
    by (vm_compute; reflexivity).
  destruct (C6_overall_score_idempotent _ _ E) as (out' & E' & Ho & _).
  assert (R : returned (returned mockResult) = out').
  { unfold returned at 1. now rewrite E'. }
  rewrite R, Ho. split; reflexivity.
Defined.

(** ** Which inputs are accepted *)

Section Acceptance.

Lemma validate_unfold (raw : value) :
  nullish raw = false ->
  validateEvaluationResult raw =
  (o <- weighted_loop weights (merge_kpis (field "kpis" raw)) (Fin 0) ;;
   ps <- slice_map (supplied_proposals raw) ;;
   Ok (result_object (merge_kpis (field "kpis" raw)) ps o
         (field "word_count" raw) (field "summary" raw))).
Proof.
  intros Hn. unfold validateEvaluationResult. now rewrite !(get_prop_ok _ _ Hn).
Qed.

Lemma reduce_sum_summable (l : list value) (a : number) :
  Forall (fun x => summable x = true) l -> exists s, reduce_sum l a = Ok s.
Proof.
  intros H. revert a. induction H as [|v r Hv _ IH]; simpl; intros a; [eauto|].
  destruct v; simpl; try discriminate; apply IH.
Qed.

Lemma average_summable (items : value) :
  nullish items = false ->
  Forall (fun x => summable x = true) (map snd (own_props items)) ->
  exists a, average items = Ok a.
Proof.
  intros Hn Hs. unfold average.
  assert (Hv : object_values items = Ok (map snd (own_props items)))
    by (destruct items; try discriminate; reflexivity).
  rewrite Hv. cbn [bind].
  destruct (reduce_sum_summable _ (Fin 0) Hs) as (s & ->). simpl. eauto.
Qed.





End Acceptance.




(** ** The category scores *)

Section CategoryScores.

Lemma lookup_assign_number (c k : string) (n : number) (o : obj) :
  lookup c (assign_number k n o) =
  if String.eqb k "__proto__" then lookup c o
  else if String.eqb c k then Some (JNum n) else lookup c o.
Proof.
  unfold assign_number. destruct (String.eqb k "__proto__"); [reflexivity|].
  apply lookup_define_property.
Qed.




End CategoryScores.




(** A category that is an own key [__proto__] of the input is given no
    score at all. *)
Lemma kpi_scores_skip_proto :
  calculateKPIScores protoKpis = Ok (JObj [("call_to_action", num 88)]).
Proof. reflexivity. Qed.

(** * Further properties of the services *)

(** ** DatabaseService.storeEvaluation *)

Section StoredScore.


End StoredScore.

Section StoredScoreInDoubles.

Lemma kpi_average_double (kpi : value) (ds : list float) :
  double_values kpi = Some ds -> Doubles.kpi_average kpi = Ok (dmean ds).
Proof.
  unfold double_values, Doubles.kpi_average. intros H.
  destruct (nullish kpi) eqn:Hn; [discriminate|].
  assert (Hv : object_values kpi = Ok (map snd (own_props kpi)))
    by (destruct kpi; try discriminate; reflexivity).
  assert (Hk : object_keys kpi = Ok (map fst (own_props kpi)))
    by (destruct kpi; try discriminate; reflexivity).
  rewrite Hv, Hk. cbn [bind]. rewrite (reduce_sum_double _ _ _ H). cbn [bind].
  unfold dmean, dsum. rewrite (all_double_length _ _ H), !length_map. reflexivity.
Qed.

Lemma sum_averages_double (l : list value) (dss : list (list float)) (a : float) :
  Forall2 (fun v ds => double_values v = Some ds) l dss ->
  Doubles.sum_averages l a = Ok (fold_left PrimFloat.add (map dmean dss) a).
Proof.
  intros H. revert a. induction H as [|v ds l dss Hv _ IH]; intros a; [reflexivity|].
  cbn [Doubles.sum_averages]. rewrite (kpi_average_double _ _ Hv). cbn [bind].
  apply IH.
Qed.

End StoredScoreInDoubles.

(** X1.  The score that [storeEvaluation] computes for the row is the plain
    mean of the category means, in double arithmetic: the means are added
    from the left starting at 0 and the total is divided by the number of
    categories of [kpi_scores], however many there are, without weights and
    without rounding to a decimal place. *)
Theorem store_overall_score_is_mean_of_means
    (kpi_scores : value) (dss : list (list float)) :
  category_doubles kpi_scores dss ->
  Doubles.overallScore kpi_scores = Ok (dmean (map dmean dss)).
Proof.
  intros [Hn Hall]. unfold Doubles.overallScore.
  assert (Hv : object_values kpi_scores = Ok (map snd (own_props kpi_scores)))
    by (destruct kpi_scores; try discriminate; reflexivity).
  rewrite Hv. cbn [bind]. rewrite (sum_averages_double _ _ _ Hall). cbn [bind].
  rewrite (Forall2_length Hall), <- (length_map dmean dss). reflexivity.
Qed.

(** X1 at the database test: (80,90) and (70,80) are stored as 80; and the
    complete test input, returned with 81.8, is stored with 79.75. *)
Lemma store_overall_score_is_mean_of_means_witness :
  Doubles.overallScore storedKpis = Ok 80%float /\
  Doubles.overallScore (field "kpis" mockResult) = Ok 79.75%float.
Proof.
  split.
  - rewrite (store_overall_score_is_mean_of_means storedKpis
               [[80; 90]; [70; 80]]%float).
    + vm_compute. reflexivity.
    + split; [reflexivity|]. repeat constructor.
  - rewrite (store_overall_score_is_mean_of_means (field "kpis" mockResult)
               [[85; 90; 80; 88]; [75; 85; 80; 90]; [95; 88; 82; 78]; [60; 70; 65]]%float).
    + vm_compute. reflexivity.
    + split; [reflexivity|]. repeat constructor.
Defined.

Section Histogram.

Lemma count_proposal_step (counts : obj) (ts : list string) (p : value) (t : string) :
  histogram_of counts ts -> typed_proposal p t ->
  exists counts',
    DatabaseService.count_proposal counts p = Ok counts' /\
    histogram_of counts' (ts ++ [t]).
Proof.
  intros [Hnd Hc] (Hn & Ht & Hi). unfold DatabaseService.count_proposal.
  rewrite (get_prop_ok _ _ Hn), Ht. cbn [bind property_key]. rewrite Hi.
  rewrite field_obj.
  assert (Hold : exists q,
            to_number (js_or match lookup t counts with
                             | Some x => x
                             | None => JUndefined
                             end zero) = Ok (Fin q) /\
            q == inject_Z (Z.of_nat (count_occ string_dec ts t))).
  { pose proof (Hc t) as Hct. destruct (lookup t counts) as [v|].
    - destruct Hct as (Hin & q & -> & Eq). exists q. split; [|exact Eq].
      unfold js_or, truthy.
      assert (Hq : ~ q == 0).
      { rewrite Eq. apply (count_occ_In string_dec) in Hin.
        unfold Qeq. simpl. lia. }
      now rewrite (Qzero_false _ Hq).
    - exists 0. split; [reflexivity|].
      apply (count_occ_not_In string_dec) in Hct. now rewrite Hct. }
  destruct Hold as (q & -> & Eq). cbn [bind num_add].
  eexists. split; [reflexivity|]. split.
  - now apply NoDup_define_property.
  - intros t'. rewrite lookup_define_property.
    assert (Hcnt : count_occ string_dec (ts ++ [t]) t' =
                   (count_occ string_dec ts t' + if string_dec t t' then 1 else 0)%nat).
    { rewrite count_occ_app. cbn [count_occ]. now destruct (string_dec t t'). }
    destruct (String.eqb_spec t' t) as [->|Hne].
    + split; [apply in_or_app; right; now left|].
      eexists. split; [reflexivity|].
      rewrite Qred_correct, Eq, Hcnt.
      destruct (string_dec t t) as [_|C]; [|congruence].
      rewrite Nat2Z.inj_add, inject_Z_plus. reflexivity.
    + destruct (string_dec t t') as [C|_]; [congruence|].
      rewrite Nat.add_0_r in Hcnt. pose proof (Hc t') as Hct'.
      destruct (lookup t' counts).
      * destruct Hct' as (Hin & q' & Hv & Hq'). split; [apply in_or_app; now left|].
        exists q'. split; [exact Hv|]. now rewrite Hcnt.
      * intros Hin. apply in_app_or in Hin as [Hin|[C|[]]];
          [now apply Hct'|congruence].
Qed.

Lemma count_all_histogram (l : list value) (types ts : list string) (counts : obj) :
  Forall2 typed_proposal l types -> histogram_of counts ts ->
  exists counts',
    DatabaseService.count_all l counts = Ok counts' /\
    histogram_of counts' (ts ++ types).
Proof.
  intros H. revert ts counts.
  induction H as [|p t l types Hp _ IH]; intros ts counts Hc.
  - exists counts. split; [reflexivity|]. now rewrite List.app_nil_r.
  - cbn [DatabaseService.count_all].
    destruct (count_proposal_step _ _ _ _ Hc Hp) as (c1 & -> & Hc1). cbn [bind].
    destruct (IH _ _ Hc1) as (c2 & Hc2 & Hh). exists c2. split; [exact Hc2|].
    now rewrite <- List.app_assoc in Hh.
Qed.

End Histogram.

(** X2.  For proposals whose types are strings (not names inherited from
    [Object.prototype]), [proposalCounts] has exactly one key per type that
    occurs, and its value is the number of proposals of that type. *)
Theorem proposal_counts_are_occurrences (l : list value) (types : list string) :
  Forall2 typed_proposal l types ->
  exists counts,
    DatabaseService.proposalCounts (JArr l) = Ok counts /\
    histogram_of counts types.
Proof.
  intros H. apply (count_all_histogram l types [] []); [exact H|].
  split; [constructor|]. intros t. simpl. tauto.
Qed.

(** X2 at three proposals, two of them of the same type. *)
Lemma proposal_counts_are_occurrences_witness :
  exists counts,
    DatabaseService.proposalCounts (JArr storedProposals) = Ok counts /\
    histogram_of counts ["CTA_CLARITY"; "ADD_MEMORY_HOOK"; "CTA_CLARITY"].
Proof.
  apply proposal_counts_are_occurrences.
  repeat constructor.
Defined.

(** X3.  Where [storeEvaluation] fails.  Without [data] or without
    [kpi_scores] the [TypeError] comes before any query.  With a
    [proposals] that is missing or not an array it comes from
    [proposals.forEach], after the row for [evaluations] has been
    submitted: the evaluation is stored without its proposals and the
    caller sees a failure. *)
Theorem store_evaluation_failure_points (data : value) :
  (nullish data = true -> DatabaseService.storeEvaluation data = Throw TypeError) /\
  (nullish data = false -> nullish (field "kpi_scores" data) = true ->
     DatabaseService.storeEvaluation data = Throw TypeError) /\
  (nullish data = false ->
   forall score,
     DatabaseService.overallScore (field "kpi_scores" data) = Ok score ->
     (forall l, field "proposals" data <> JArr l) ->
     DatabaseService.storeEvaluation data =
     Ok ({| DatabaseService.timestamp := field "timestamp" data;
            DatabaseService.duration := field "duration" data;
            DatabaseService.kpi_scores := field "kpi_scores" data;
            DatabaseService.word_count := field "word_count" data;
            DatabaseService.overall_score := score |},
         Throw TypeError)).
Proof.
  unfold DatabaseService.storeEvaluation. repeat split.
  - intros Hn. now rewrite (get_prop_nullish _ _ Hn).
  - intros Hn Hk. rewrite !(get_prop_ok _ _ Hn). cbn [bind].
    unfold DatabaseService.overallScore.
    destruct (field "kpi_scores" data); try discriminate; reflexivity.
  - intros Hn score Hs Hp. rewrite !(get_prop_ok _ _ Hn). cbn [bind].
    rewrite Hs. cbn [bind]. do 2 f_equal.
    destruct (field "proposals" data) as [| | | | |l|]; try reflexivity.
    now destruct (Hp l).
Qed.

(** X3 at the stored test data without [proposals]: the row with score 80
    is submitted, then the call fails. *)
Lemma store_evaluation_failure_points_witness :
  exists row,
    DatabaseService.storeEvaluation (storedData JUndefined) = Ok (row, Throw TypeError) /\
    DatabaseService.overall_score row = Fin 80 /\
    DatabaseService.storeEvaluation JNull = Throw TypeError.
Proof.
  destruct (store_evaluation_failure_points (storedData JUndefined)) as (_ & _ & H).
  destruct (store_evaluation_failure_points JNull) as (H0 & _).
  eexists. split; [apply (H eq_refl (Fin 80) eq_refl); discriminate|].
  split; [reflexivity|exact (H0 eq_refl)].
Defined.

(** ** Storing a normalized evaluation *)

Section StoreNormalized.

Lemma In_update (k k' : string) (v v' : value) (o : obj) :
  In (k', v') (update k v o) -> (k', v') = (k, v) \/ In (k', v') o.
Proof.
  induction o as [|[k1 v1] r IH]; simpl; [tauto|].
  destruct (String.eqb_spec k k1) as [->|_]; simpl.
  - intros [E|H]; [now left|right; now right].
  - intros [E|H]; [right; now left|]. destruct (IH H); [now left|right; now right].
Qed.

Lemma In_insert_index (n : N) (k k' : string) (v v' : value) (o : obj) :
  In (k', v') (insert_index n k v o) -> (k', v') = (k, v) \/ In (k', v') o.
Proof.
  induction o as [|[k1 v1] r IH]; simpl.
  - intros [E|[]]. now left.
  - destruct (array_index k1) as [m|]; [destruct (m <? n)%N|]; simpl;
      try (intros [E|[E|H]]; [now left|right; now left|right; now right]).
    intros [E|H]; [right; now left|]. destruct (IH H); [now left|right; now right].
Qed.

Lemma In_define_property (k k' : string) (v v' : value) (o : obj) :
  In (k', v') (define_property k v o) -> (k', v') = (k, v) \/ In (k', v') o.
Proof.
  unfold define_property. destruct (lookup k o).
  - apply In_update.
  - destruct (array_index k).
    + apply In_insert_index.
    + intros H. apply in_app_or in H as [H|[E|[]]]; [now right|now left].
Qed.

Lemma In_define_all (k : string) (v : value) (l target : obj) :
  In (k, v) (define_all l target) -> In (k, v) l \/ In (k, v) target.
Proof.
  unfold define_all. revert target.
  induction l as [|[k1 v1] r IH]; simpl; intros target H; [now right|].
  destruct (IH _ H) as [Hin|Hin]; [left; now right|].
  apply In_define_property in Hin as [E|Hin]; [left; left; now symmetry|now right].
Qed.


End StoreNormalized.

Section StoreTotal.


Lemma merged_storable (raw : value) :
  (forall k v, In (k, v) (supplied_kpis raw) -> storable_category v) ->
  Forall (fun kv => storable_category (snd kv)) (merge_kpis (field "kpis" raw)).
Proof.
  intros Hs. apply Forall_forall. intros [k v] Hin.
  rewrite merge_kpis_define in Hin. apply In_define_all in Hin as [Hin|Hin].
  - now apply (Hs k).
  - simpl in Hin.
    repeat (destruct Hin as [[= <- <-]|Hin];
            [split; [reflexivity|repeat constructor]|]).
    destruct Hin.
Qed.




End StoreTotal.



Section ExtraCategory.

Lemma not_category (k : string) :
  ~ In k categories ->
  String.eqb k "call_to_action" = false /\ String.eqb k "structure_time" = false /\
  String.eqb k "content_clarity" = false /\ String.eqb k "memorability" = false.
Proof.
  intros H. repeat split; apply String.eqb_neq; intros ->; apply H; simpl; tauto.
Qed.

Lemma merge_extra_category (k : string) (v : value) :
  ~ In k categories -> array_index k = None ->
  merge_kpis (JObj [(k, v)]) = defaultKpis ++ [(k, v)].
Proof.
  intros Hk Ha. destruct (not_category k Hk) as (E1 & E2 & E3 & E4).
  unfold merge_kpis, spread, define_all. cbn [js_or truthy own_props fold_left fst snd].
  change (fold_left _ defaultKpis []) with defaultKpis.
  unfold define_property. cbn [lookup defaultKpis]. now rewrite E1, E2, E3, E4, Ha.
Qed.

End ExtraCategory.

(** X5.  The condition of X4 is needed.  An entry of [raw.kpis] under
    another name than the four categories is carried into the returned
    [kpis] without being looked at; when it is [null] the input is accepted
    and scored 0 by [validateEvaluationResult], and [storeEvaluation] then
    fails on the result before any query, since it averages every entry. *)
Theorem extra_null_category_is_accepted_but_not_storable
    (k : string) (pt mu duration word_count timestamp : value) :
  ~ In k categories -> array_index k = None ->
  exists out,
    validateEvaluationResult (JObj [("kpis", JObj [(k, JNull)])]) = Ok out /\
    field k (field "kpis" out) = JNull /\
    field "overall_score" out = num 0 /\
    DatabaseService.storeEvaluation
      (Server.stored_data (Server.evaluated out pt mu) duration word_count timestamp)
      = Throw TypeError.
Proof.
  intros Hk Ha. destruct (not_category k Hk) as (E1 & E2 & E3 & E4).
  eexists. split; [|split; [|split]].
  - apply (validate_intro _ (Fin 0) []); [reflexivity| |reflexivity].
    change (field "kpis" (JObj [("kpis", JObj [(k, JNull)])])) with (JObj [(k, JNull)]).
    rewrite (merge_extra_category k JNull Hk Ha). reflexivity.
  - change (field "kpis" (JObj [("kpis", JObj [(k, JNull)])])) with (JObj [(k, JNull)]).
    rewrite (merge_extra_category k JNull Hk Ha), field_kpis_result, field_obj.
    cbn [lookup defaultKpis app]. now rewrite E1, E2, E3, E4, String.eqb_refl.
  - reflexivity.
  - change (field "kpis" (JObj [("kpis", JObj [(k, JNull)])])) with (JObj [(k, JNull)]).
    rewrite (merge_extra_category k JNull Hk Ha). reflexivity.
Qed.

(** X5 at an entry called [notes]. *)
Lemma extra_null_category_is_accepted_but_not_storable_witness :
  exists out,
    validateEvaluationResult (JObj [("kpis", JObj [("notes", JNull)])]) = Ok out /\
    DatabaseService.storeEvaluation
      (Server.stored_data (Server.evaluated out (num 12) (JStr "m"))
         (num 45) (num 105) (JStr "t"))
      = Throw TypeError.
Proof.
  destruct (extra_null_category_is_accepted_but_not_storable "notes"
              (num 12) (JStr "m") (num 45) (num 105) (JStr "t"))
    as (out & Hv & _ & _ & Hs).
  - simpl. intuition discriminate.
  - reflexivity.
  - exists out. split; [exact Hv|exact Hs].
Defined.

(** ** ResultsDisplay *)

Section CategoryScore.

Lemma calculateCategoryScore_average (result : value) (c : string) :
  nullish result = false ->
  nullish (field "kpis" result) = false ->
  ResultsDisplay.calculateCategoryScore result c =
  (avg <- average (field c (field "kpis" result)) ;; Ok (math_round avg)).
Proof.
  intros Hr Hk. unfold ResultsDisplay.calculateCategoryScore, average.
  rewrite (get_prop_ok _ _ Hr). cbn [bind]. rewrite (get_prop_ok _ _ Hk). cbn [bind].
  destruct (object_values _); cbn [bind]; try reflexivity.
  destruct (reduce_sum _ _); reflexivity.
Qed.

Lemma weighted_loop_averages (ws : list (string * Q)) (kpis : obj) (a o : number) :
  weighted_loop ws kpis a = Ok o ->
  forall c, In c (map fst ws) -> exists avg, average (field c (JObj kpis)) = Ok avg.
Proof.
  revert a. induction ws as [|[c1 w] r IH]; cbn [weighted_loop]; intros a H c Hc;
    [destruct Hc|].
  rewrite (get_prop_ok (JObj kpis) c1 eq_refl) in H. cbn [bind] in H.
  apply bind_Ok in H as (avg & Ha & H). destruct Hc as [<-|Hc]; [eauto|].
  exact (IH _ H c Hc).
Qed.

Lemma scores_loop_lookup (entries scores0 scores : obj) :
  NoDup (map fst entries) ->
  scores_loop entries scores0 = Ok scores ->
  forall c items, In (c, items) entries -> c <> "__proto__" ->
    exists avg, average items = Ok avg /\ lookup c scores = Some (JNum (math_round avg)).
Proof.
  revert scores0. induction entries as [|[c1 it1] r IH];
    intros scores0 Hnd H c items Hin Hp; [destruct Hin|].
  inversion Hnd as [|? ? Hnotin Hnd']; subst. cbn [scores_loop] in H.
  apply bind_Ok in H as (avg & Ha & H). destruct Hin as [[= <- <-]|Hin].
  - exists avg. split; [exact Ha|].
    assert (K : forall entries s0 s, scores_loop entries s0 = Ok s ->
                ~ In c1 (map fst entries) -> lookup c1 s = lookup c1 s0).
    { clear. induction entries as [|[k it] r IH]; intros s0 s H Hk.
      - now injection H as <-.
      - cbn [scores_loop] in H. apply bind_Ok in H as (a & _ & H).
        rewrite (IH _ _ H) by (simpl in Hk; tauto).
        rewrite lookup_assign_number.
        destruct (String.eqb k "__proto__"); [reflexivity|].
        destruct (String.eqb_spec c1 k) as [->|_]; [simpl in Hk; tauto|reflexivity]. }
    rewrite (K _ _ _ H Hnotin), lookup_assign_number.
    destruct (String.eqb_spec c1 "__proto__") as [E|_]; [now elim Hp|].
    now rewrite String.eqb_refl.
  - exact (IH _ Hnd' H c items Hin Hp).
Qed.

End CategoryScore.

(** X7.  The category score of the results view is defined on every
    normalized result: for each of the four categories it is [Math.round]
    of the very average that entered [overall_score], and no error is
    raised. *)
Theorem category_score_defined_on_normalized_result (raw out result : value) (c : string) :
  validateEvaluationResult raw = Ok out ->
  nullish result = false ->
  field "kpis" result = field "kpis" out ->
  In c categories ->
  exists avg,
    average (field c (field "kpis" out)) = Ok avg /\
    ResultsDisplay.calculateCategoryScore result c = Ok (math_round avg).
Proof.
  intros Hv Hr Hk Hc. destruct (validate_inv _ _ Hv) as (_ & o & ps & Hw & _ & ->).
  rewrite field_kpis_result in *.
  destruct (weighted_loop_averages _ _ _ _ Hw c Hc) as (avg & Ha).
  exists avg. split; [exact Ha|].
  rewrite (calculateCategoryScore_average result c Hr) by now rewrite Hk.
  rewrite Hk, Ha. reflexivity.
Qed.

(** X7 at the complete test input: 85.75 is shown as 86. *)
Lemma category_score_defined_on_normalized_result_witness :
  ResultsDisplay.calculateCategoryScore (returned mockResult) "call_to_action"
  = Ok (Fin 86).
Proof.
  assert (E : validateEvaluationResult mockResult = Ok (returned mockResult))
    by (vm_compute; reflexivity).
  destruct (category_score_defined_on_normalized_result mockResult _
              (returned mockResult) "call_to_action" E eq_refl eq_refl (or_introl eq_refl))
    as (avg & Ha & Hc).
  rewrite Hc. f_equal.
  assert (A : average (field "call_to_action" (field "kpis" (returned mockResult)))
              = Ok (Fin (343 # 4))) by (vm_compute; reflexivity).
  rewrite A in Ha. injection Ha as <-. reflexivity.
Defined.

(** X8.  The results view and [calculateKPIScores] agree: whenever
    [calculateKPIScores] returns for the [kpis] of a result, the score that
    [calculateCategoryScore] shows for a category of that [kpis] other
    than [__proto__] is the score it holds for that category. *)
Theorem category_score_agrees_with_kpi_scores
    (result : value) (o scores : obj) (c : string) (items : value) :
  nullish result = false ->
  field "kpis" result = JObj o ->
  NoDup (map fst o) ->
  calculateKPIScores (JObj o) = Ok (JObj scores) ->
  lookup c o = Some items ->
  c <> "__proto__" ->
  exists n,
    ResultsDisplay.calculateCategoryScore result c = Ok n /\
    lookup c scores = Some (JNum n).
Proof.
  intros Hr Hk Hnd Hs Hc Hp. unfold calculateKPIScores in Hs.
  cbn [object_entries own_props bind] in Hs.
  apply bind_Ok in Hs as (sc & Hl & [= <-]).
  destruct (scores_loop_lookup _ _ _ Hnd Hl c items (lookup_In _ _ _ Hc) Hp)
    as (avg & Ha & Hlk).
  exists (math_round avg). split; [|exact Hlk].
  rewrite (calculateCategoryScore_average result c Hr) by now rewrite Hk.
  rewrite Hk, field_obj, Hc, Ha. reflexivity.
Qed.

(** X8 at the categories of the service integration test. *)
Lemma category_score_agrees_with_kpi_scores_witness :
  exists n,
    ResultsDisplay.calculateCategoryScore (JObj [("kpis", testKpis)]) "content_clarity"
      = Ok n /\
    n = Fin 88.
Proof.
  assert (E : calculateKPIScores testKpis
              = Ok (JObj [("call_to_action", num 85); ("structure_time", num 75);
                          ("content_clarity", num 88)])) by (vm_compute; reflexivity).
  destruct (category_score_agrees_with_kpi_scores (JObj [("kpis", testKpis)])
              (own_props testKpis) _ "content_clarity" _ eq_refl eq_refl
              ltac:(repeat constructor; simpl; intuition discriminate) E eq_refl
              ltac:(discriminate))
    as (n & Hn & Hl).
  exists n. split; [exact Hn|]. now injection Hl as <-.
Defined.

(** ** TranscriptionService.getFileExtension and the upload filter *)



(** ** More on validateEvaluationResult *)

(** X10.  The [overall_score] that the model reports is never used: a raw
    evaluation with any [overall_score], or with none, is normalized to the
    same result. *)
Theorem reported_overall_score_is_ignored (o : obj) (v : value) :
  validateEvaluationResult (JObj (define_property "overall_score" v o)) =
  validateEvaluationResult (JObj o).
Proof.
  rewrite !validate_unfold by reflexivity.
  unfold supplied_proposals. rewrite !field_obj, !lookup_define_property.
  reflexivity.
Qed.

(** X11.  Every returned proposal is well formed, whatever the raw
    proposals were: there are at most three, each has exactly the keys
    type, title, description and priority, none of the first three is
    falsy, and the priority is HIGH, MEDIUM or LOW. *)
Theorem returned_proposals_are_well_formed (raw out : value) :
  validateEvaluationResult raw = Ok out ->
  exists ps,
    field "proposals" out = JArr ps /\
    (List.length ps <= 3)%nat /\
    Forall well_formed_proposal ps.
Proof.
  intros Hv. destruct (validate_inv _ _ Hv) as (_ & o & ps & _ & Hs & ->).
  apply slice_map_inv in Hs as (l & _ & Hm).
  exists ps. split; [reflexivity|]. split.
  - destruct (mapM_nth _ _ _ Hm) as [-> _]. rewrite length_firstn. apply Nat.le_min_l.
  - apply Forall_impl with (2 := mapM_Forall _ _ _ Hm). intros p (a & Ha).
    apply normalize_proposal_inv in Ha as [_ ->].
    unfold well_formed_proposal. rewrite !field_obj. cbn [own_props map fst lookup].
    simpl String.eqb. cbv iota.
    repeat split;
      try (unfold js_or; destruct (truthy (field _ a)) eqn:T; [exact T|reflexivity]).
    destruct (valid_priority (field "priority" a)) eqn:V; [|simpl; tauto].
    apply valid_priority_spec in V as (s & Hs & ->). simpl in Hs. simpl.
    destruct Hs as [<-|[<-|[<-|[]]]]; tauto.
Qed.

Lemma returned_proposals_are_well_formed_witness :
  exists ps,
    field "proposals" (returned falsyResult) = JArr ps /\
    Forall well_formed_proposal ps.
Proof.
  assert (E : validateEvaluationResult falsyResult = Ok (returned falsyResult))
    by (vm_compute; reflexivity).
  destruct (returned_proposals_are_well_formed _ _ E) as (ps & Hp & _ & Hw).
  exists ps. split; assumption.
Defined.

(** X12.  Entries of [raw.kpis] beyond the four categories are returned in
    [kpis] as supplied, and they have no influence on the score: two
    accepted inputs whose four categories are the same get the same
    [overall_score]. *)
Theorem extra_kpis_are_kept_and_not_scored (raw raw' out out' : value) :
  validateEvaluationResult raw = Ok out ->
  validateEvaluationResult raw' = Ok out' ->
  NoDup (map fst (supplied_kpis raw)) ->
  (forall k v, lookup k (supplied_kpis raw) = Some v ->
     field k (field "kpis" out) = v) /\
  ((forall c, In c categories ->
      field c (field "kpis" out) = field c (field "kpis" out')) ->
   field "overall_score" out = field "overall_score" out').
Proof.
  intros Hv Hv' Hnd.
  destruct (validate_inv _ _ Hv) as (_ & o & ps & Hw & _ & ->).
  destruct (validate_inv _ _ Hv') as (_ & o' & ps' & Hw' & _ & ->).
  rewrite !field_kpis_result, !field_overall_result. split.
  - intros k v Hk. rewrite field_obj, merge_kpis_define, (lookup_define_all _ _ _ Hnd).
    fold (supplied_kpis raw). now rewrite Hk.
  - intros Hc.
    assert (E : Ok o = Ok o'); [|now injection E as <-].
    rewrite <- Hw, <- Hw'. clear Hw Hw'.
    assert (G : forall ws a, (forall c, In c (map fst ws) -> In c categories) ->
                weighted_loop ws (merge_kpis (field "kpis" raw)) a =
                weighted_loop ws (merge_kpis (field "kpis" raw')) a).
    { induction ws as [|[c w] r IH]; intros a Hin; [reflexivity|].
      cbn [weighted_loop]. rewrite !(get_prop_ok (JObj _) c eq_refl). cbn [bind].
      rewrite (Hc c) by (apply Hin; now left).
      destruct (average _); cbn [bind]; try reflexivity.
      apply IH. intros c' Hc'. apply Hin. now right. }
    apply G. auto.
Qed.

Lemma extra_kpis_are_kept_and_not_scored_witness :
  field "notes" (field "kpis"
    (returned (JObj [("kpis", JObj [("notes", JObj [("x", num 100)])])])))
  = JObj [("x", num 100)] /\
  field "overall_score"
    (returned (JObj [("kpis", JObj [("notes", JObj [("x", num 100)])])]))
  = field "overall_score" (returned (JObj [])).
Proof.
  assert (E : validateEvaluationResult (JObj [("kpis", JObj [("notes", JObj [("x", num 100)])])])
              = Ok (returned (JObj [("kpis", JObj [("notes", JObj [("x", num 100)])])])))
    by (vm_compute; reflexivity).
  assert (E' : validateEvaluationResult (JObj []) = Ok (returned (JObj [])))
    by (vm_compute; reflexivity).
  destruct (extra_kpis_are_kept_and_not_scored _ _ _ _ E E') as [K S].
  - repeat constructor. simpl. tauto.
  - split; [apply K; reflexivity|]. apply S.
    intros c Hc. simpl in Hc.
    destruct Hc as [<-|[<-|[<-|[<-|[]]]]]; reflexivity.
Defined.

(** ** Normalizing twice *)

Section Idempotence.

Lemma lookup_app_skip (k : string) (v0 : value) (A D0 : obj) :
  lookup k A = None -> lookup k (A ++ (k, v0) :: D0) = Some v0.
Proof.
  intros H. rewrite lookup_app, H. simpl. now rewrite String.eqb_refl.
Qed.

Lemma update_app_skip (k : string) (v v0 : value) (A D0 : obj) :
  lookup k A = None -> update k v (A ++ (k, v0) :: D0) = A ++ (k, v) :: D0.
Proof.
  induction A as [|[k1 v1] r IH]; simpl.
  - intros _. now rewrite String.eqb_refl.
  - destruct (String.eqb k k1); [discriminate|]. intros H. now rewrite IH.
Qed.

Lemma update_app (k : string) (v : value) (A B : obj) :
  update k v (A ++ B) =
  match lookup k A with
  | Some _ => update k v A ++ B
  | None => A ++ update k v B
  end.
Proof.
  induction A as [|[k1 v1] r IH]; simpl; [reflexivity|].
  destruct (String.eqb k k1); [reflexivity|].
  rewrite IH. now destruct (lookup k r).
Qed.

Lemma NoDup_app_notin (k : string) (A B : list string) :
  NoDup (A ++ k :: B) -> ~ In k A /\ ~ In k B.
Proof.
  intros H. apply NoDup_remove_2 in H. split; intros Hin; apply H, in_or_app; tauto.
Qed.

Lemma keys_None (k : string) (o : obj) : ~ In k (map fst o) -> lookup k o = None.
Proof.
  intros H. destruct (lookup k o) eqn:E; [|reflexivity].
  apply lookup_In in E. apply (in_map fst) in E. contradiction.
Qed.

(** Overwriting the entries of [D], in their order, gives the new entries. *)
Lemma define_all_overwrite (Dp D A : obj) :
  map fst Dp = map fst D -> NoDup (map fst (A ++ D)) ->
  define_all Dp (A ++ D) = A ++ Dp.
Proof.
  revert D A. induction Dp as [|[k v] Dp IH]; intros [|[k0 v0] D] A HK Hnd;
    try discriminate; [reflexivity|].
  simpl in HK. injection HK as <- HK.
  rewrite map_app in Hnd. simpl in Hnd.
  destruct (NoDup_app_notin _ _ _ Hnd) as [HA _].
  pose proof (keys_None _ _ HA) as HAl.
  unfold define_all. cbn [fold_left fst snd]. unfold define_property at 2.
  rewrite (lookup_app_skip k v0 A D HAl), (update_app_skip k v v0 A D HAl).
  change (A ++ (k, v) :: D) with (A ++ [(k, v)] ++ D). rewrite List.app_assoc.
  fold (define_all Dp ((A ++ [(k, v)]) ++ D)). rewrite (IH D (A ++ [(k, v)]) HK).
  - now rewrite <- List.app_assoc.
  - rewrite <- List.app_assoc, map_app. exact Hnd.
Qed.

(** Adding new named entries appends them. *)
Lemma define_all_append (E X : obj) :
  Forall (fun kv => array_index (fst kv) = None) E ->
  NoDup (map fst (X ++ E)) ->
  define_all E X = X ++ E.
Proof.
  intros HE. revert X. induction HE as [|[k v] E Hk _ IH]; intros X Hnd.
  - now rewrite List.app_nil_r.
  - rewrite map_app in Hnd. simpl in Hnd.
    destruct (NoDup_app_notin _ _ _ Hnd) as [HX _].
    unfold define_all. cbn [fold_left fst snd]. unfold define_property at 2.
    simpl in Hk. rewrite (keys_None _ _ HX), Hk.
    fold (define_all E (X ++ [(k, v)])). rewrite IH.
    + now rewrite <- List.app_assoc.
    + rewrite <- List.app_assoc, map_app. exact Hnd.
Qed.

(** The shape of an object built on [D] from named entries: the entries of
    [D], overwritten, then the new ones. *)
Lemma define_all_shape (S D : obj) :
  Forall (fun kv => array_index (fst kv) = None) S ->
  NoDup (map fst D) ->
  exists Dp E,
    define_all S D = Dp ++ E /\ map fst Dp = map fst D /\
    Forall (fun kv => array_index (fst kv) = None) E /\
    NoDup (map fst (Dp ++ E)).
Proof.
  intros HS HD.
  assert (G : forall Dp E, map fst Dp = map fst D ->
              Forall (fun kv => array_index (fst kv) = None) E ->
              NoDup (map fst (Dp ++ E)) ->
              exists Dp' E', define_all S (Dp ++ E) = Dp' ++ E' /\
                map fst Dp' = map fst D /\
                Forall (fun kv => array_index (fst kv) = None) E' /\
                NoDup (map fst (Dp' ++ E'))).
  { induction HS as [|[k v] S Hk _ IH]; intros Dp E HK HE Hnd.
    - exists Dp, E. now repeat split.
    - unfold define_all. cbn [fold_left fst snd].
      fold (define_all S (define_property k v (Dp ++ E))).
      pose proof (NoDup_define_property k v _ Hnd) as Hnd'.
      unfold define_property in *. simpl in Hk.
      destruct (lookup k (Dp ++ E)) eqn:Hl.
      + rewrite update_app in *. destruct (lookup k Dp).
        * apply IH; [now rewrite keys_update|exact HE|exact Hnd'].
        * apply IH; [exact HK| |exact Hnd'].
          clear -HE. induction HE as [|[k1 v1] E H1 HE' IHE]; simpl; [constructor|].
          destruct (String.eqb k k1); constructor; assumption.
      + rewrite Hk in *. rewrite <- List.app_assoc in *.
        apply IH; [exact HK| |exact Hnd'].
        apply Forall_app. split; [exact HE|]. now constructor. }
  destruct (G D []) as (Dp & E & H); [reflexivity|constructor| |].
  - now rewrite List.app_nil_r.
  - rewrite List.app_nil_r in H. eauto.
Qed.

Lemma define_all_app (l1 l2 target : obj) :
  define_all (l1 ++ l2) target = define_all l2 (define_all l1 target).
Proof. unfold define_all. apply fold_left_app. Qed.

Lemma merge_kpis_fixed (rk : value) :
  Forall (fun kv => array_index (fst kv) = None) (own_props (js_or rk (JObj []))) ->
  merge_kpis (JObj (merge_kpis rk)) = merge_kpis rk.
Proof.
  intros HS. rewrite !merge_kpis_define. cbn [js_or truthy own_props].
  destruct (define_all_shape _ defaultKpis HS) as (Dp & E & -> & HK & HE & Hnd).
  { repeat constructor; simpl; intuition discriminate. }
  rewrite define_all_app.
  assert (HO : define_all Dp defaultKpis = Dp).
  { apply (define_all_overwrite Dp defaultKpis [] HK).
    repeat constructor; simpl; intuition discriminate. }
  rewrite HO. now apply define_all_append.
Qed.

Lemma js_or_again (a d : value) : js_or (js_or a d) d = js_or a d.
Proof.
  unfold js_or. destruct (truthy a) eqn:T; [now rewrite T|now destruct (truthy d)].
Qed.

Lemma normalize_proposal_fixed (a p : value) :
  normalize_proposal a = Ok p -> normalize_proposal p = Ok p.
Proof.
  intros H. apply normalize_proposal_inv in H as [_ ->].
  rewrite normalize_proposal_ok by reflexivity. rewrite !field_obj.
  cbn [lookup]. simpl String.eqb. cbv iota.
  rewrite !js_or_again. do 5 f_equal.
  destruct (valid_priority (field "priority" a)) eqn:V; [now rewrite V|reflexivity].
Qed.

Lemma mapM_fixed {A : Type} (f : A -> outcome A) (l : list A) :
  Forall (fun a => f a = Ok a) l -> mapM f l = Ok l.
Proof.
  induction 1 as [|a r Ha _ IH]; simpl; [reflexivity|]. now rewrite Ha, IH.
Qed.

End Idempotence.

(** X13.  Normalizing is idempotent on the whole result, not only on the
    score: when the keys of [raw.kpis] are names (none is an array index),
    the result of [validateEvaluationResult] is accepted again and returned
    as it is, with the same keys in the same order. *)
Theorem validate_is_idempotent (raw out : value) :
  validateEvaluationResult raw = Ok out ->
  Forall (fun kv => array_index (fst kv) = None) (supplied_kpis raw) ->
  validateEvaluationResult out = Ok out.
Proof.
  intros Hv HS. destruct (validate_inv _ _ Hv) as (_ & o & ps & Hw & Hs & ->).
  apply slice_map_inv in Hs as (l & _ & Hm).
  pose proof (merge_kpis_fixed (field "kpis" raw) HS) as HM.
  rewrite (validate_intro _ o ps).
  - rewrite field_kpis_result, field_word_count_result, field_summary_result, HM.
    unfold result_object. now rewrite !js_or_again.
  - reflexivity.
  - now rewrite field_kpis_result, HM.
  - unfold supplied_proposals. rewrite field_proposals_result.
    cbn [js_or truthy slice_map].
    assert (Hlen : (List.length ps <= 3)%nat).
    { destruct (mapM_nth _ _ _ Hm) as [-> _]. rewrite length_firstn. apply Nat.le_min_l. }
    rewrite (firstn_all2 _ Hlen). apply mapM_fixed.
    apply Forall_impl with (2 := mapM_Forall _ _ _ Hm). intros p (a & Ha).
    now apply (normalize_proposal_fixed a).
Qed.

Lemma validate_is_idempotent_witness :
  validateEvaluationResult (returned resultWithManyProposals)
  = Ok (returned resultWithManyProposals).
Proof.
  assert (E : validateEvaluationResult resultWithManyProposals
              = Ok (returned resultWithManyProposals)) by (vm_compute; reflexivity).
  apply (validate_is_idempotent _ _ E). constructor.
Defined.

(** ** The colours of the results view *)

(** X16.  The text colour and the bar colour of a score always show the
    same band, and the band never drops when the score rises: green from
    80, yellow from 60, red below and for NaN. *)
Theorem score_colours_agree (score : value) (a b : Q) :
  (ResultsDisplay.getScoreColor score = Ok "text-green-600" <->
   ResultsDisplay.getBarColor score = Ok "bg-green-500") /\
  (ResultsDisplay.getScoreColor score = Ok "text-yellow-600" <->
   ResultsDisplay.getBarColor score = Ok "bg-yellow-500") /\
  (ResultsDisplay.getScoreColor score = Ok "text-red-600" <->
   ResultsDisplay.getBarColor score = Ok "bg-red-500") /\
  (a <= b ->
     (ResultsDisplay.getBarColor (JNum (Fin a)) = Ok "bg-green-500" ->
      ResultsDisplay.getBarColor (JNum (Fin b)) = Ok "bg-green-500") /\
     (ResultsDisplay.getBarColor (JNum (Fin b)) = Ok "bg-red-500" ->
      ResultsDisplay.getBarColor (JNum (Fin a)) = Ok "bg-red-500")) /\
  ResultsDisplay.getBarColor (JNum NaN) = Ok "bg-red-500".
Proof.
  unfold ResultsDisplay.getScoreColor, ResultsDisplay.getBarColor.
  repeat split;
    try (destruct (to_number score) as [n| |]; cbn [bind]; try discriminate;
         destruct (num_ge n (Fin 80)); [|destruct (num_ge n (Fin 60))];
         (reflexivity || discriminate)).
  - cbn [to_number bind num_ge].
    destruct (Qle_bool 80 a) eqn:A; [|destruct (Qle_bool 60 a); discriminate].
    intros _. apply Qle_bool_iff in A.
    assert (B : Qle_bool 80 b = true) by (apply Qle_bool_iff; lra). now rewrite B.
  - cbn [to_number bind num_ge].
    destruct (Qle_bool 80 b) eqn:B; [discriminate|].
    destruct (Qle_bool 60 b) eqn:B'; [discriminate|]. intros _.
    assert (A : Qle_bool 80 a = false).
    { destruct (Qle_bool 80 a) eqn:A; [|reflexivity]. apply Qle_bool_iff in A.
      assert (C : Qle_bool 80 b = true) by (apply Qle_bool_iff; lra). congruence. }
    assert (A' : Qle_bool 60 a = false).
    { destruct (Qle_bool 60 a) eqn:A'; [|reflexivity]. apply Qle_bool_iff in A'.
      assert (C : Qle_bool 60 b = true) by (apply Qle_bool_iff; lra). congruence. }
    now rewrite A, A'.
Qed.

(** X16 at the scores 80 and 90. *)
Lemma score_colours_agree_witness :
  ResultsDisplay.getBarColor (num 90) = Ok "bg-green-500" /\
  ResultsDisplay.getScoreColor (num 90) = Ok "text-green-600".
Proof.
  destruct (score_colours_agree (num 90) 80 90) as (G & _ & _ & M & _).
  assert (B : ResultsDisplay.getBarColor (num 90) = Ok "bg-green-500").
  { apply M; [unfold Qle; simpl; lia|reflexivity]. }
  split; [exact B|]. apply G. exact B.
Defined.

(** ** calculateKPIScores on a normalized result *)

Section ScoresOfNormalized.

Lemma scores_loop_summable (entries scores0 : obj) :
  Forall (fun kv => storable_category (snd kv)) entries ->
  exists scores, scores_loop entries scores0 = Ok scores.
Proof.
  intros H. revert scores0.
  induction H as [|[c items] r [Hn Hs] _ IH]; intros scores0;
    [eexists; reflexivity|].
  cbn [scores_loop]. destruct (average_summable items Hn Hs) as (avg & ->).
  cbn [bind]. apply IH.
Qed.

End ScoresOfNormalized.

(** X17.  [calculateKPIScores] returns on the [kpis] of a normalized
    result when every entry of [raw.kpis] is a category whose values are
    added as numbers, and the object it returns holds a number for each of
    the four categories. *)
Theorem kpi_scores_of_normalized_result (raw out : value) :
  validateEvaluationResult raw = Ok out ->
  (forall k v, In (k, v) (supplied_kpis raw) -> storable_category v) ->
  exists scores,
    calculateKPIScores (field "kpis" out) = Ok (JObj scores) /\
    forall c, In c categories -> exists n, lookup c scores = Some (JNum n).
Proof.
  intros Hv Hs. destruct (validate_inv _ _ Hv) as (_ & o & ps & _ & _ & ->).
  rewrite field_kpis_result. unfold calculateKPIScores.
  cbn [object_entries own_props bind].
  destruct (scores_loop_summable _ [] (merged_storable raw Hs)) as (scores & Hl).
  rewrite Hl. cbn [bind]. exists scores. split; [reflexivity|].
  intros c Hc.
  destruct (merged_cases (field "kpis" raw) c Hc) as (v & Hlk & _).
  destruct (scores_loop_lookup _ _ _ (merge_kpis_NoDup _) Hl c v (lookup_In _ _ _ Hlk))
    as (avg & _ & Hsc).
  - intros ->. simpl in Hc. intuition discriminate.
  - eauto.
Qed.

Lemma kpi_scores_of_normalized_result_witness :
  exists scores,
    calculateKPIScores (field "kpis" (returned incompleteResult)) = Ok (JObj scores) /\
    forall c, In c categories -> exists n, lookup c scores = Some (JNum n).
Proof.
  assert (E : validateEvaluationResult incompleteResult = Ok (returned incompleteResult))
    by (vm_compute; reflexivity).
  apply (kpi_scores_of_normalized_result _ _ E).
  intros k v Hin. simpl in Hin. destruct Hin as [[= <- <-]|[]].
  split; [reflexivity|repeat constructor].
Defined.
